(** * The DTLZ benchmark suite of pagmo ([include/pagmo/problems/dtlz.hpp])

    A shallow embedding of the class [pagmo::dtlz]: its validating
    constructor, the four distance functions [g], the distribution function
    [h], the five shape kernels, and the two [p_distance] overloads.

    - Unsigned integers ([unsigned int], [vector_double::size_type]) are
      values of [N]; size arithmetic that can wrap is written with
      [size_sub] and [size_add].
    - [vector_double] is a list; [operator[]] is checked, an index past the
      end giving the outcome [Undefined].
    - [double] is an abstract carrier with the operations the file uses
      (class [DoubleOps]); the instance [R_double] reads them as exact
      operations on real numbers.
    - A function returns an [outcome]: a value, a thrown exception, or
      [Undefined]. *)

From Stdlib Require Import List NArith ZArith String Lia Bool.
From Stdlib Require Import DecimalString DecimalN DecimalPos.
From Stdlib Require Import Reals Lra.
Import ListNotations.

Set Implicit Arguments.

(* ===================================================================== *)
(** ** Outcomes *)
(* ===================================================================== *)

(** The exceptions the file throws through [pagmo_throw]: only
    [std::invalid_argument], carrying the message handed to the macro. *)
Inductive exn : Type :=
| invalid_argument (what : string).

Inductive outcome (A : Type) : Type :=
| Ok (a : A)
| Throw (e : exn)
| Undefined.

Arguments Ok {A} a.
Arguments Throw {A} e.
Arguments Undefined {A}.

(** Modelled from the spec: the macro [pagmo_throw] of exceptions.hpp, which
    is not among the sources; the operation "fails with an [InvalidArgument]
    condition (carrying a human-readable message)", so the macro is read as
    throwing the exception built from its message. *)
Definition pagmo_throw {A : Type} (e : exn) : outcome A := Throw e.

Definition bind {A B : Type} (m : outcome A) (k : A -> outcome B) : outcome B :=
  match m with
  | Ok a => k a
  | Throw e => Throw e
  | Undefined => Undefined
  end.

Declare Scope outcome_scope.
Delimit Scope outcome_scope with outcome.
Notation "x <- m ;; k" := (bind m (fun x => k))
  (at level 61, m at next level, right associativity) : outcome_scope.
Open Scope outcome_scope.

(* ===================================================================== *)
(** ** Unsigned integers and vectors *)
(* ===================================================================== *)

(** [std::numeric_limits<vector_double::size_type>::max()] on the LP64
    targets pagmo supports: [size_type] is a 64-bit unsigned integer. *)
Definition size_modulus : N := 18446744073709551616.
Definition size_max : N := 18446744073709551615.

(** [a - b] and [a + b] on [size_type]. *)
Definition size_sub (a b : N) : N := (a + size_modulus - b) mod size_modulus.
Definition size_add (a b : N) : N := (a + b) mod size_modulus.

(** [std::to_string] on an unsigned integer. *)
Definition to_string (n : N) : string := NilZero.string_of_uint (N.to_uint n).

(** [v.size()]. *)
Definition vsize {A : Type} (v : list A) : N := N.of_nat (List.length v).

(** [v[i]] read. *)
Definition vget {A : Type} (v : list A) (i : N) : outcome A :=
  match nth_error v (N.to_nat i) with
  | Some a => Ok a
  | None => Undefined
  end.

Fixpoint list_set {A : Type} (v : list A) (n : nat) (a : A) : list A :=
  match v, n with
  | [], _ => []
  | _ :: t, O => a :: t
  | h :: t, S n' => h :: list_set t n' a
  end.

(** [v[i] = a]. *)
Definition vset {A : Type} (v : list A) (i : N) (a : A) : outcome (list A) :=
  if (i <? vsize v)%N then Ok (list_set v (N.to_nat i) a) else Undefined.

(** [v.push_back(a)]. *)
Definition push_back {A : Type} (v : list A) (a : A) : list A := v ++ [a].

(** [for (size_type i = lo; i < hi; ++i) body], with the loop state passed
    through: the body runs for [lo], [lo + 1], ..., [hi - 1], so [hi - lo]
    times when [lo < hi] and not at all otherwise. *)
Fixpoint for_loop {St : Type} (n : nat) (i : N) (body : N -> St -> outcome St) (s : St)
  : outcome St :=
  match n with
  | O => Ok s
  | S n' => s' <- body i s ;; for_loop n' (N.succ i) body s'
  end.

Definition for_range {St : Type} (lo hi : N) (body : N -> St -> outcome St) (s : St)
  : outcome St :=
  for_loop (N.to_nat (hi - lo)) lo body s.

(* ===================================================================== *)
(** ** Double-precision operations *)
(* ===================================================================== *)

(** The operations on [double] that dtlz.hpp uses.  [of_int] is the
    conversion from an integer (also the integral literals [0.], [1.], [2.],
    [9.], [20.], [100.], and the promotion of an integral argument of
    [std::pow]); [d_pi] and [d_pi_half] are [detail::pi()] and
    [detail::pi_half()] of detail/constants.hpp. *)
Class DoubleOps (D : Type) : Type := {
  of_int : Z -> D;
  c0_5 : D;
  c0_1 : D;
  dadd : D -> D -> D;
  dsub : D -> D -> D;
  dmul : D -> D -> D;
  ddiv : D -> D -> D;
  dpow : D -> D -> D;
  dcos : D -> D;
  dsin : D -> D;
  d_pi : D;
  d_pi_half : D
}.

Declare Scope double_scope.
Delimit Scope double_scope with dbl.
Infix "+" := dadd : double_scope.
Infix "-" := dsub : double_scope.
Infix "*" := dmul : double_scope.
Infix "/" := ddiv : double_scope.

(** Conversion of an unsigned integer to [double]. *)
Definition of_N {D : Type} `{DoubleOps D} (n : N) : D := of_int (Z.of_N n).

(** [std::pow] on real numbers: an integral exponent gives the integer
    power, a zero base gives zero, and otherwise [exp (y * ln x)]. *)
Definition Rpow (x y : R) : R :=
  if Req_dec_T y (IZR (Int_part y)) then powerRZ x (Int_part y)
  else if Req_dec_T x 0 then 0%R
  else Rpower x y.

#[global] Instance R_double : DoubleOps R := {|
  of_int := IZR;
  c0_5 := 0.5%R;
  c0_1 := 0.1%R;
  dadd := Rplus;
  dsub := Rminus;
  dmul := Rmult;
  ddiv := Rdiv;
  dpow := Rpow;
  dcos := cos;
  dsin := sin;
  d_pi := PI;
  d_pi_half := (PI / 2)%R
|}.

(* ===================================================================== *)
(** ** The class [dtlz] *)
(* ===================================================================== *)

Record dtlz : Type := mk_dtlz {
  m_prob_id : N;   (* unsigned int *)
  m_alpha : N;     (* unsigned int, used only for DTLZ4 *)
  m_dim : N;       (* vector_double::size_type *)
  m_fdim : N       (* vector_double::size_type *)
}.

(** The constructor [dtlz::dtlz(prob_id, dim, fdim, alpha)]. *)
Definition dtlz_ctor (prob_id dim fdim alpha : N) : outcome dtlz :=
  if ((prob_id =? 0) || (7 <? prob_id))%N then
    pagmo_throw (invalid_argument
             ("DTLZ test suite contains seven (prob_id = [1 ... 7]) problems, prob_id="
                ++ to_string prob_id ++ " was detected")%string)
  else if (fdim <? 2)%N then
    pagmo_throw (invalid_argument
             ("DTLZ test problem have a minimum of 2 objectives: fdim="
                ++ to_string fdim ++ " was detected")%string)
  else if (size_max / 3 <? fdim)%N then
    pagmo_throw (invalid_argument "The number of objectives is too large")
  else if (size_max / 3 <? dim)%N then
    pagmo_throw (invalid_argument "The problem dimension is too large")
  else if (dim <=? fdim)%N then
    pagmo_throw (invalid_argument
             "The problem dimension has to be larger than the number of objectives.")
  else
    Ok {| m_prob_id := prob_id; m_alpha := alpha; m_dim := dim; m_fdim := fdim |}.

(** [pagmo::vector_double] of types.hpp: [std::vector<double>]. *)
Definition vector_double (D : Type) : Type := list D.

(** Modelled from the spec: [pagmo::population] of population.hpp, which is
    not among the sources; the spec gives the population-level metric the
    signature [convergence(population: sequence<sequence<float>>)], so a
    population is the sequence of its decision vectors, [pop.get_x()] that
    sequence and [pop.size()] its length. *)
Definition population (D : Type) : Type := list (vector_double D).

Definition get_x {D : Type} (pop : population D) : list (vector_double D) := pop.

Definition pop_size {D : Type} (pop : population D) : N := vsize pop.

Section Evaluator.

Context {D : Type} `{DoubleOps D}.

Local Open Scope double_scope.

(** [vector_double f(n)] and [vector_double f(n, 0.)]: [n] zeros. *)
Definition vzeros (n : N) : vector_double D := repeat (of_int 0) (N.to_nat n).

(** [f[i] *= e]. *)
Definition vmul_assign (f : vector_double D) (i : N) (e : D) : outcome (vector_double D) :=
  fi <- vget f i ;; vset f i (fi * e).

(** The loop of every shape kernel and of [convergence_metric] that copies
    [x[lo]], [x[lo + 1]], ... to the end of [x] into the fresh vector [x_M]. *)
Definition collect_x_M (lo : N) (x : vector_double D) : outcome (vector_double D) :=
  for_range lo (vsize x)
    (fun i x_M => xi <- vget x i ;; Ok (push_back x_M xi)) [].

(** *** The distance functions *)

Definition g13_func (x : vector_double D) : outcome D :=
  y <- for_range 0 (vsize x)
         (fun i y =>
            a <- vget x i ;;
            b <- vget x i ;;
            Ok (y + (dpow (a - c0_5) (of_int 2)
                     - dcos (of_int 20 * d_pi * (b - c0_5)))))
         (of_int 0) ;;
  Ok (of_int 100 * (y + of_N (vsize x))).

Definition g245_func (x : vector_double D) : outcome D :=
  for_range 0 (vsize x)
    (fun i y => a <- vget x i ;; Ok (y + dpow (a - c0_5) (of_int 2)))
    (of_int 0).

Definition g6_func (x : vector_double D) : outcome D :=
  for_range 0 (vsize x)
    (fun i y => a <- vget x i ;; Ok (y + dpow a c0_1))
    (of_int 0).

Definition g7_func (x : vector_double D) : outcome D :=
  y <- for_range 0 (vsize x)
         (fun i y => a <- vget x i ;; Ok (y + a))
         (of_int 0) ;;
  Ok ((of_int 9 / of_N (vsize x)) * y).

(** The case of the [switch] of [g_func] that a problem id selects;
    [g_fallthrough] when no label matches and control reaches [return -1]. *)
Inductive g_case : Type :=
| g_case_6 | g_case_7 | g_case_13 | g_case_245 | g_fallthrough.

Definition g_switch (prob_id : N) : g_case :=
  match prob_id with
  | 6%N => g_case_6
  | 7%N => g_case_7
  | 1%N | 3%N => g_case_13
  | 2%N | 4%N | 5%N => g_case_245
  | _ => g_fallthrough
  end.

Definition g_func (p : dtlz) (x : vector_double D) : outcome D :=
  match g_switch (m_prob_id p) with
  | g_case_6 => g6_func x
  | g_case_7 => g7_func x
  | g_case_13 => g13_func x
  | g_case_245 => g245_func x
  | g_fallthrough => Ok (of_int (-1))
  end.

(** *** The distribution function *)

Definition h7_func (p : dtlz) (f : vector_double D) (g : D) : outcome D :=
  y <- for_range 0 (size_sub (vsize f) 1)
         (fun i y =>
            a <- vget f i ;;
            b <- vget f i ;;
            Ok (y + (a / (of_int 1 + g))
                    * (of_int 1 + dsin (of_int 3 * d_pi * b))))
         (of_int 0) ;;
  Ok (of_N (m_fdim p) - y).

(** *** The shape kernels *)

Definition f1_objfun_impl (p : dtlz) (x : vector_double D) : outcome (vector_double D) :=
  let f := vzeros (m_fdim p) in
  x_M <- collect_x_M (size_sub (vsize f) 1) x ;;
  g <- g_func p x_M ;;
  f <- vset f 0 (c0_5 * (of_int 1 + g)) ;;
  f <- for_range 0 (size_sub (vsize f) 1)
         (fun i f => xi <- vget x i ;; vmul_assign f 0 xi) f ;;
  f <- for_range 1 (size_sub (vsize f) 1)
         (fun i f =>
            f <- vset f i (c0_5 * (of_int 1 + g)) ;;
            f <- for_range 0 (size_sub (vsize f) (size_add i 1))
                   (fun j f => xj <- vget x j ;; vmul_assign f i xj) f ;;
            xk <- vget x (size_sub (vsize f) (size_add i 1)) ;;
            vmul_assign f i (of_int 1 - xk)) f ;;
  x0 <- vget x 0 ;;
  vset f (size_sub (vsize f) 1) (c0_5 * (of_int 1 - x0) * (of_int 1 + g)).

Definition f23_objfun_impl (p : dtlz) (x : vector_double D) : outcome (vector_double D) :=
  let f := vzeros (m_fdim p) in
  x_M <- collect_x_M (size_sub (vsize f) 1) x ;;
  g <- g_func p x_M ;;
  f <- vset f 0 (of_int 1 + g) ;;
  f <- for_range 0 (size_sub (vsize f) 1)
         (fun i f => xi <- vget x i ;; vmul_assign f 0 (dcos (xi * d_pi_half))) f ;;
  f <- for_range 1 (size_sub (vsize f) 1)
         (fun i f =>
            f <- vset f i (of_int 1 + g) ;;
            f <- for_range 0 (size_sub (vsize f) (size_add i 1))
                   (fun j f => xj <- vget x j ;;
                               vmul_assign f i (dcos (xj * d_pi_half))) f ;;
            xk <- vget x (size_sub (vsize f) (size_add i 1)) ;;
            vmul_assign f i (dsin (xk * d_pi_half))) f ;;
  x0 <- vget x 0 ;;
  vset f (size_sub (vsize f) 1) ((of_int 1 + g) * dsin (x0 * d_pi_half)).

Definition f4_objfun_impl (p : dtlz) (x : vector_double D) : outcome (vector_double D) :=
  let f := vzeros (m_fdim p) in
  x_M <- collect_x_M (size_sub (vsize f) 1) x ;;
  g <- g_func p x_M ;;
  f <- vset f 0 (of_int 1 + g) ;;
  f <- for_range 0 (size_sub (vsize f) 1)
         (fun i f => xi <- vget x i ;;
                     vmul_assign f 0 (dcos (dpow xi (of_N (m_alpha p)) * d_pi_half))) f ;;
  f <- for_range 1 (size_sub (vsize f) 1)
         (fun i f =>
            f <- vset f i (of_int 1 + g) ;;
            f <- for_range 0 (size_sub (vsize f) (size_add i 1))
                   (fun j f => xj <- vget x j ;;
                               vmul_assign f i
                                 (dcos (dpow xj (of_N (m_alpha p)) * d_pi_half))) f ;;
            xk <- vget x (size_sub (vsize f) (size_add i 1)) ;;
            vmul_assign f i (dsin (dpow xk (of_N (m_alpha p)) * d_pi_half))) f ;;
  x0 <- vget x 0 ;;
  vset f (size_sub (vsize f) 1)
    ((of_int 1 + g) * dsin (dpow x0 (of_N (m_alpha p)) * d_pi_half)).

Definition f56_objfun_impl (p : dtlz) (x : vector_double D) : outcome (vector_double D) :=
  let f := vzeros (m_fdim p) in
  x_M <- collect_x_M (size_sub (vsize f) 1) x ;;
  g <- g_func p x_M ;;
  let theta := vzeros (vsize f) in
  x0 <- vget x 0 ;;
  theta <- vset theta 0 x0 ;;
  let t := of_int 1 / (of_int 2 * (of_int 1 + g)) in
  theta <- for_range 1 (vsize f)
             (fun i theta => xi <- vget x i ;;
                             vset theta i (t + ((g * xi) / (of_int 1 + g)))) theta ;;
  f <- vset f 0 (of_int 1 + g) ;;
  f <- for_range 0 (size_sub (vsize f) 1)
         (fun i f => ti <- vget theta i ;; vmul_assign f 0 (dcos (ti * d_pi_half))) f ;;
  f <- for_range 1 (size_sub (vsize f) 1)
         (fun i f =>
            f <- vset f i (of_int 1 + g) ;;
            f <- for_range 0 (size_sub (vsize f) (size_add i 1))
                   (fun j f => tj <- vget theta j ;;
                               vmul_assign f i (dcos (tj * d_pi_half))) f ;;
            tk <- vget theta (size_sub (vsize f) (size_add i 1)) ;;
            vmul_assign f i (dsin (tk * d_pi_half))) f ;;
  t0 <- vget theta 0 ;;
  vset f (size_sub (vsize f) 1) ((of_int 1 + g) * dsin (t0 * d_pi_half)).

Definition f7_objfun_impl (p : dtlz) (x : vector_double D) : outcome (vector_double D) :=
  let f := vzeros (m_fdim p) in
  x_M <- collect_x_M (size_sub (vsize f) 1) x ;;
  g0 <- g_func p x_M ;;
  let g := of_int 1 + g0 in
  f <- for_range 0 (size_sub (vsize f) 1)
         (fun i f => xi <- vget x i ;; vset f i xi) f ;;
  h <- h7_func p f g ;;
  vset f (size_sub (vsize f) 1) ((of_int 1 + g) * h).

(** *** The public member functions *)

Definition fitness (p : dtlz) (x : vector_double D) : outcome (vector_double D) :=
  match m_prob_id p with
  | 1%N => f1_objfun_impl p x
  | 2%N | 3%N => f23_objfun_impl p x
  | 4%N => f4_objfun_impl p x
  | 5%N | 6%N => f56_objfun_impl p x
  | 7%N => f7_objfun_impl p x
  | _ => Ok []
  end.

Definition get_nobj (p : dtlz) : N := m_fdim p.

Definition get_bounds (p : dtlz) : vector_double D * vector_double D :=
  (repeat (of_int 0) (N.to_nat (m_dim p)), repeat (of_int 1) (N.to_nat (m_dim p))).

Definition convergence_metric (p : dtlz) (x : vector_double D) : outcome D :=
  let c := of_int 0 in
  x_M <- collect_x_M (size_sub (m_fdim p) 1) x ;;
  g <- g_func p x_M ;;
  Ok (c + g).

(** [p_distance(const vector_double &)]. *)
Definition p_distance (p : dtlz) (x : vector_double D) : outcome D :=
  if negb (vsize x =? m_dim p)%N then
    pagmo_throw (invalid_argument
             ("The size of the decision vector should be " ++ to_string (m_dim p)
                ++ " while " ++ to_string (vsize x) ++ " was detected")%string)
  else convergence_metric p x.

(** [p_distance(const pagmo::population &)]. *)
Definition p_distance_pop (p : dtlz) (pop : population D) : outcome D :=
  c <- for_range 0 (pop_size pop)
         (fun i c => xi <- vget (get_x pop) i ;; d <- p_distance p xi ;; Ok (c + d))
         (of_int 0) ;;
  Ok (c / of_N (pop_size pop)).

End Evaluator.

Definition get_name (p : dtlz) : string := ("DTLZ" ++ to_string (m_prob_id p))%string.

(* ===================================================================== *)
(** ** Running the code symbolically *)
(* ===================================================================== *)

(** The free instance of [DoubleOps]: a run of the code over [sym] returns
    the expression tree of the floating-point operations it performs, in
    the order it performs them. *)
Inductive sym : Type :=
| SInt (z : Z)
| SHalf
| STenth
| SAdd (a b : sym)
| SSub (a b : sym)
| SMul (a b : sym)
| SDiv (a b : sym)
| SPow (a b : sym)
| SCos (a : sym)
| SSin (a : sym)
| SPi
| SPiHalf
| SVar (name : string).

#[global] Instance sym_double : DoubleOps sym := {|
  of_int := SInt;
  c0_5 := SHalf;
  c0_1 := STenth;
  dadd := SAdd;
  dsub := SSub;
  dmul := SMul;
  ddiv := SDiv;
  dpow := SPow;
  dcos := SCos;
  dsin := SSin;
  d_pi := SPi;
  d_pi_half := SPiHalf
|}.

(* ===================================================================== *)
(** ** Specification-level definitions *)
(* ===================================================================== *)

Section SpecLevel.

Context {D : Type} `{DoubleOps D}.

Local Open Scope double_scope.

(** The sum of a sequence, accumulated from [0.] in sequence order. *)
Definition dsum (l : list D) : D := fold_left dadd l (of_int 0).

(** The arithmetic mean: the sum divided by the number of terms. *)
Definition mean (l : list D) : D := dsum l / of_N (vsize l).

(** Kernel D of the spec: [(9 / |x_M|) * sum of the entries]. *)
Definition kernel_D (x_M : list D) : D := (of_int 9 / of_N (vsize x_M)) * dsum x_M.

(** The distribution function of the spec,
    [h(f, g) = objective_count - sum_i (f_i / (1 + g)) * (1 + sin(3 pi f_i))],
    the sum running over the entries [fs] of [f] without its last one. *)
Definition h_term (g : D) (fi : D) : D :=
  (fi / (of_int 1 + g)) * (of_int 1 + dsin (of_int 3 * d_pi * fi)).

Definition h_spec (objective_count : N) (fs : list D) (g : D) : D :=
  of_N objective_count - dsum (map (h_term g) fs).

(** The trailing [n] entries of a vector. *)
Definition trailing {A : Type} (n : N) (x : list A) : list A :=
  skipn (List.length x - N.to_nat n) x.

End SpecLevel.

(** The sum of a sequence of real numbers. *)
Definition Rsum (l : list R) : R := fold_right Rplus 0%R l.

(** The precondition of the claims about construction: the conditions
    under which the constructor throws. *)
Definition invalid_arguments (prob_id dim fdim : N) : Prop :=
  (prob_id = 0 \/ 7 < prob_id \/ fdim < 2 \/ size_max / 3 < fdim
   \/ size_max / 3 < dim \/ dim <= fdim)%N.

(** A computation returns normally with a value satisfying [Q]. *)
Definition returns {A : Type} (m : outcome A) (Q : A -> Prop) : Prop :=
  exists a, m = Ok a /\ Q a.

(** A computation throws [std::invalid_argument]. *)
Definition throws_invalid_argument {A : Type} (m : outcome A) : Prop :=
  exists what, m = Throw (invalid_argument what).

(* ===================================================================== *)
(** ** Closed forms of the shape kernels *)
(* ===================================================================== *)

Section ShapeSpec.

Context {D : Type} `{DoubleOps D}.

Local Open Scope double_scope.

(** [init * c v[0] * c v[1] * ... * c v[r-1]], multiplied in that order. *)
Definition shape_product (c : D -> D) (v : list D) (r : nat) (init : D) : D :=
  fold_left (fun acc a => acc * c a) (firstn r v) init.

(** Objective [k < n - 1] of a kernel with [n] objectives: the product over
    the leading [n - 1 - k] entries of [v], times [l v[n-1-k]] when
    [k > 0]. *)
Definition shape_objective (init : D) (c l : D -> D) (v : list D) (n k : nat) : D :=
  match k with
  | O => shape_product c v (n - 1) init
  | S _ => shape_product c v (n - 1 - k) init * l (nth (n - 1 - k) v (of_int 0))
  end.

(** Objectives [0 .. n-2]. *)
Definition shape_front (init : D) (c l : D -> D) (v : list D) (n : nat) : list D :=
  map (shape_objective init c l v n) (seq 0 (n - 1)).

(** The meta-variables [theta] of [f56_objfun_impl]: [theta[0] = x[0]] and
    [theta[i] = t + (g * x[i]) / (1 + g)] for [0 < i < n], with
    [t = 1 / (2 * (1 + g))]. *)
Definition theta_of (g : D) (x : vector_double D) (n : nat) : vector_double D :=
  hd (of_int 0) x
  :: map (fun a => of_int 1 / (of_int 2 * (of_int 1 + g)) + ((g * a) / (of_int 1 + g)))
         (firstn (n - 1) (tl x)).

(** The statements that [f1_objfun_impl], [f23_objfun_impl],
    [f4_objfun_impl] and [f56_objfun_impl] share, from [f[0] = ...] to the
    end of the nested loops, followed by the rest [K] of the kernel: the
    kernels differ in the start value [init], in the factor [c] of the
    products, in the last factor [l] and in the vector [v] they read. *)
Definition shape_then {A : Type} (init : D) (c l : D -> D) (v f : vector_double D)
           (K : vector_double D -> outcome A) : outcome A :=
  f <- vset f 0 init ;;
  f <- for_range 0 (size_sub (vsize f) 1)
         (fun i f => a <- vget v i ;; vmul_assign f 0 (c a)) f ;;
  f <- for_range 1 (size_sub (vsize f) 1)
         (fun i f =>
            f <- vset f i init ;;
            f <- for_range 0 (size_sub (vsize f) (size_add i 1))
                   (fun j f => a <- vget v j ;; vmul_assign f i (c a)) f ;;
            a <- vget v (size_sub (vsize f) (size_add i 1)) ;;
            vmul_assign f i (l a)) f ;;
  K f.

(** The same, on the zero vector and closed by the last assignment
    [f[f.size() - 1] = fin w[0]]. *)
Definition shape_kernel (init : D) (c l fin : D -> D) (v w : vector_double D) (n : N)
  : outcome (vector_double D) :=
  shape_then init c l v (vzeros n)
    (fun f => a <- vget w 0 ;; vset f (size_sub (vsize f) 1) (fin a)).

End ShapeSpec.

(** The number of entries of the decision vector that [fitness] reads from
    its front: [x[0 .. fdim-2]], and also [x[fdim-1]] for problems 5 and
    6. *)
Definition min_length (p : dtlz) : N :=
  match m_prob_id p with
  | 5%N | 6%N => m_fdim p
  | _ => (m_fdim p - 1)%N
  end.

(** A computation throws no exception. *)
Definition never_throws {A : Type} (m : outcome A) : Prop := forall e, m <> Throw e.



(** Reading back a decimal numeral. *)
Definition parse_N (s : string) : option N :=
  option_map N.of_uint (NilZero.uint_of_string s).

(** An evaluator with four variables and three objectives for each
    problem id, and a decision vector for it, on which the theorems below
    are instantiated. *)
Definition sample_dtlz (prob_id : N) : dtlz := mk_dtlz prob_id 100 4 3.

Definition sample_x : vector_double R := [0.5; 0.25; 0.75; 0.5]%R.

(* ===================================================================== *)
(** ** Outcomes, vectors and loops *)
(* ===================================================================== *)

Lemma returns_Ok {A : Type} (a : A) (Q : A -> Prop) : Q a -> returns (Ok a) Q.
Proof. intro HQ. exists a. split; [reflexivity | exact HQ]. Qed.

Lemma returns_bind {A B : Type} (m : outcome A) (k : A -> outcome B)
      (Q : A -> Prop) (R' : B -> Prop) :
  returns m Q -> (forall a, Q a -> returns (k a) R') -> returns (x <- m ;; k x) R'.
Proof.
  intros [a [Hm Ha]] Hk. rewrite Hm. simpl. apply Hk. exact Ha.
Qed.

Lemma returns_weaken {A : Type} (m : outcome A) (Q Q' : A -> Prop) :
  returns m Q -> (forall a, Q a -> Q' a) -> returns m Q'.
Proof.
  intros [a [Hm Ha]] HQ. exists a. split; [exact Hm | apply HQ; exact Ha].
Qed.

Lemma returns_eq {A : Type} (m : outcome A) (a : A) :
  returns m (fun r => r = a) -> m = Ok a.
Proof. intros [r [Hm Hr]]. rewrite Hm, Hr. reflexivity. Qed.

Lemma size_sub_nowrap (a b : N) :
  (b <= a)%N -> (a < size_modulus)%N -> size_sub a b = (a - b)%N.
Proof.
  intros Hba Ha. unfold size_sub.
  replace (a + size_modulus - b)%N with ((a - b) + 1 * size_modulus)%N by lia.
  rewrite N.Div0.mod_add. apply N.mod_small. lia.
Qed.

Lemma size_add_nowrap (a b : N) :
  (a + b < size_modulus)%N -> size_add a b = (a + b)%N.
Proof. intro Hab. unfold size_add. apply N.mod_small. exact Hab. Qed.

Lemma size_sub_lt (a b : N) : (size_sub a b < size_modulus)%N.
Proof. unfold size_sub. apply N.mod_lt. discriminate. Qed.

Lemma vsize_app {A : Type} (u v : list A) : vsize (u ++ v) = (vsize u + vsize v)%N.
Proof. unfold vsize. rewrite length_app. lia. Qed.

Lemma vsize_repeat {A : Type} (a : A) (n : N) : vsize (repeat a (N.to_nat n)) = n.
Proof. unfold vsize. rewrite repeat_length. apply N2Nat.id. Qed.

Lemma list_set_length {A : Type} (v : list A) :
  forall n a, List.length (list_set v n a) = List.length v.
Proof.
  induction v as [| h t IH]; intros [| n] a; simpl; try reflexivity.
  rewrite IH. reflexivity.
Qed.

Lemma list_set_app {A : Type} (u : list A) (b c : A) (w : list A) :
  list_set (u ++ b :: w) (List.length u) c = u ++ c :: w.
Proof.
  induction u as [| h t IH]; simpl; [reflexivity | rewrite IH; reflexivity].
Qed.

Lemma vget_Some {A : Type} (v : list A) (i : N) (a : A) :
  nth_error v (N.to_nat i) = Some a -> vget v i = Ok a.
Proof. intro Hn. unfold vget. rewrite Hn. reflexivity. Qed.

Lemma vget_returns {A : Type} (v : list A) (i : N) :
  (i < vsize v)%N -> returns (vget v i) (fun a => nth_error v (N.to_nat i) = Some a).
Proof.
  intro Hi. unfold vget.
  destruct (nth_error v (N.to_nat i)) as [a |] eqn:Hn.
  - apply returns_Ok. reflexivity.
  - apply nth_error_None in Hn. unfold vsize in Hi. lia.
Qed.

Lemma vset_eq {A : Type} (v : list A) (i : N) (a : A) :
  (i < vsize v)%N -> vset v i a = Ok (list_set v (N.to_nat i) a).
Proof. intro Hi. unfold vset. apply N.ltb_lt in Hi. rewrite Hi. reflexivity. Qed.

Lemma vset_returns {A : Type} (v : list A) (i : N) (a : A) :
  (i < vsize v)%N -> returns (vset v i a) (fun v' => vsize v' = vsize v).
Proof.
  intro Hi. rewrite vset_eq by exact Hi. apply returns_Ok.
  unfold vsize. rewrite list_set_length. reflexivity.
Qed.

(** The loop rule: an invariant indexed by the loop counter. *)
Lemma for_loop_returns {St : Type} (P : N -> St -> Prop) (body : N -> St -> outcome St) :
  forall (n : nat) (lo : N) (s : St),
    P lo s ->
    (forall i s', (lo <= i < lo + N.of_nat n)%N -> P i s' ->
                  returns (body i s') (P (N.succ i))) ->
    returns (for_loop n lo body s) (P (lo + N.of_nat n)%N).
Proof.
  induction n as [| n IH]; intros lo s Hs Hbody; simpl for_loop.
  - apply returns_Ok. replace (lo + N.of_nat 0)%N with lo by lia. exact Hs.
  - eapply returns_bind.
    + apply Hbody; [lia | exact Hs].
    + intros s' Hs'.
      replace (lo + N.of_nat (S n))%N with (N.succ lo + N.of_nat n)%N by lia.
      apply IH; [exact Hs' |].
      intros i s'' Hi. apply Hbody. lia.
Qed.

Lemma for_range_returns {St : Type} (P : N -> St -> Prop) (body : N -> St -> outcome St)
      (lo hi : N) (s : St) :
  (lo <= hi)%N -> P lo s ->
  (forall i s', (lo <= i < hi)%N -> P i s' -> returns (body i s') (P (N.succ i))) ->
  returns (for_range lo hi body s) (P hi).
Proof.
  intros Hle Hs Hbody. unfold for_range.
  replace hi with (lo + N.of_nat (N.to_nat (hi - lo)))%N at 2 by lia.
  apply for_loop_returns; [exact Hs |].
  intros i s' Hi. apply Hbody. lia.
Qed.

(** A loop whose bounds are crossed does not run. *)
Lemma for_range_empty {St : Type} (body : N -> St -> outcome St) (lo hi : N) (s : St) :
  (hi <= lo)%N -> for_range lo hi body s = Ok s.
Proof.
  intro Hle. unfold for_range.
  replace (N.to_nat (hi - lo)) with O by lia. reflexivity.
Qed.

(** The loop rule with an invariant that ignores the counter. *)
Lemma for_range_preserves {St : Type} (P : St -> Prop) (body : N -> St -> outcome St)
      (lo hi : N) (s : St) :
  P s ->
  (forall i s', (lo <= i < hi)%N -> P s' -> returns (body i s') P) ->
  returns (for_range lo hi body s) P.
Proof.
  intros Hs Hbody. destruct (N.le_gt_cases lo hi) as [Hle | Hgt].
  - apply for_range_returns with (P := fun _ => P); assumption.
  - rewrite for_range_empty by lia. apply returns_Ok. exact Hs.
Qed.

(** A loop that reads [l[k]], [l[k+1]], ... and folds them into its state. *)
Lemma for_loop_fold {A St : Type} (l : list A) (step : St -> A -> St)
      (body : N -> St -> outcome St) :
  (forall i a s, nth_error l (N.to_nat i) = Some a -> body i s = Ok (step s a)) ->
  forall (n k : nat) (s : St),
    (n <= List.length l - k)%nat ->
    for_loop n (N.of_nat k) body s = Ok (fold_left step (firstn n (skipn k l)) s).
Proof.
  intros Hbody. induction n as [| n IH]; intros k s Hn; simpl for_loop.
  - reflexivity.
  - destruct (nth_error l k) as [a |] eqn:Hk.
    2:{ apply nth_error_None in Hk. lia. }
    rewrite (Hbody (N.of_nat k) a s) by (rewrite Nat2N.id; exact Hk).
    simpl bind. rewrite <- Nat2N.inj_succ. rewrite IH by lia.
    assert (Hskip : skipn k l = a :: skipn (S k) l).
    { clear - Hk. revert k Hk. induction l as [| h t IHl]; intros [| k] Hk;
        simpl in *; try discriminate.
      - injection Hk as ->. reflexivity.
      - apply IHl. exact Hk. }
    rewrite Hskip. reflexivity.
Qed.

Lemma for_range_fold {A St : Type} (l : list A) (step : St -> A -> St)
      (body : N -> St -> outcome St) (lo : N) (s : St) :
  (forall i a s', nth_error l (N.to_nat i) = Some a -> body i s' = Ok (step s' a)) ->
  for_range lo (vsize l) body s = Ok (fold_left step (skipn (N.to_nat lo) l) s).
Proof.
  intro Hbody. unfold for_range.
  rewrite <- (N2Nat.id lo) at 2.
  rewrite (for_loop_fold l step body Hbody) by (unfold vsize; lia).
  rewrite firstn_all2; [reflexivity |].
  rewrite length_skipn. unfold vsize. lia.
Qed.

(* ===================================================================== *)
(** ** The constructor *)
(* ===================================================================== *)

(** What a successful construction establishes. *)
Lemma dtlz_ctor_Ok (prob_id dim fdim alpha : N) (p : dtlz) :
  dtlz_ctor prob_id dim fdim alpha = Ok p ->
  p = mk_dtlz prob_id alpha dim fdim
  /\ (1 <= prob_id <= 7)%N /\ (2 <= fdim)%N /\ (fdim < dim)%N
  /\ (dim <= size_max / 3)%N.
Proof.
  unfold dtlz_ctor.
  destruct (N.eqb_spec prob_id 0); simpl orb; [discriminate |].
  destruct (N.ltb_spec 7 prob_id); [discriminate |].
  destruct (N.ltb_spec fdim 2); [discriminate |].
  destruct (N.ltb_spec (size_max / 3) fdim); [discriminate |].
  destruct (N.ltb_spec (size_max / 3) dim); [discriminate |].
  destruct (N.leb_spec dim fdim); [discriminate |].
  intro Hp. injection Hp as <-. repeat split; lia.
Qed.

Lemma size_max_third : (size_max / 3 = 6148914691236517205)%N.
Proof. reflexivity. Qed.

(** The invariant of a constructed evaluator, on its fields. *)
Lemma dtlz_ctor_invariant (prob_id dim fdim alpha : N) (p : dtlz) :
  dtlz_ctor prob_id dim fdim alpha = Ok p ->
  (1 <= m_prob_id p <= 7)%N /\ (2 <= m_fdim p)%N /\ (m_fdim p < m_dim p)%N
  /\ (m_dim p < size_modulus)%N.
Proof.
  intro Hp. apply dtlz_ctor_Ok in Hp. destruct Hp as [-> [Hid [Hf [Hd Hmax]]]].
  rewrite size_max_third in Hmax. unfold size_modulus. simpl. repeat split; lia.
Qed.

Lemma prob_id_cases (n : N) :
  (1 <= n <= 7)%N ->
  (n = 1 \/ n = 2 \/ n = 3 \/ n = 4 \/ n = 5 \/ n = 6 \/ n = 7)%N.
Proof. lia. Qed.

(** A check of the constructor that fires: the constructor throws, and the
    condition checked is one of the listed ones. *)
Ltac ctor_throws :=
  split;
  [ split; [intros _; first [lia | tauto] | intros _; eexists; reflexivity]
  | let Hn := fresh "Hn" in intro Hn; exfalso; apply Hn; first [lia | tauto] ].

(** C4: the constructor throws [std::invalid_argument] exactly when the
    problem id is 0 or above 7, or there are fewer than 2 objectives, or the
    number of objectives or the dimension exceeds a third of the largest
    [size_type], or the dimension does not exceed the number of objectives;
    for all other arguments it returns the evaluator holding the four
    arguments as its fields. *)
Theorem dtlz_ctor_validation (prob_id dim fdim alpha : N) :
  (throws_invalid_argument (dtlz_ctor prob_id dim fdim alpha)
   <-> invalid_arguments prob_id dim fdim)
  /\ (~ invalid_arguments prob_id dim fdim ->
      dtlz_ctor prob_id dim fdim alpha
      = Ok {| m_prob_id := prob_id; m_alpha := alpha; m_dim := dim; m_fdim := fdim |}).
Proof.
  unfold throws_invalid_argument, invalid_arguments, dtlz_ctor, pagmo_throw.
  destruct (N.eqb_spec prob_id 0) as [Hid0 | Hid0]; simpl orb; [ctor_throws |].
  destruct (N.ltb_spec 7 prob_id) as [Hid7 | Hid7]; [ctor_throws |].
  destruct (N.ltb_spec fdim 2) as [Hf2 | Hf2]; [ctor_throws |].
  destruct (N.ltb_spec (size_max / 3) fdim) as [Hfm | Hfm]; [ctor_throws |].
  destruct (N.ltb_spec (size_max / 3) dim) as [Hdm | Hdm]; [ctor_throws |].
  destruct (N.leb_spec dim fdim) as [Hdf | Hdf]; [ctor_throws |].
  split; [split |].
  - intros [what Hwhat]. discriminate Hwhat.
  - intros [Hc | [Hc | [Hc | [Hc | [Hc | Hc]]]]]; exfalso; lia.
  - intros _. reflexivity.
Qed.

(* ===================================================================== *)
(** ** The distance functions *)
(* ===================================================================== *)

Section DistanceFunctions.

Context {D : Type} `{DoubleOps D}.

Local Open Scope double_scope.

Lemma fold_left_push_back {A : Type} (l acc : list A) :
  fold_left (@push_back A) l acc = acc ++ l.
Proof.
  revert acc. induction l as [| a l IH]; intro acc; simpl.
  - rewrite app_nil_r. reflexivity.
  - rewrite IH. unfold push_back. rewrite <- app_assoc. reflexivity.
Qed.

(** The copy loop returns the entries of [x] from index [lo] on; it never
    reads past the end, whatever [lo] is. *)
Lemma collect_x_M_eq (lo : N) (x : vector_double D) :
  collect_x_M lo x = Ok (skipn (N.to_nat lo) x).
Proof.
  unfold collect_x_M.
  rewrite (for_range_fold x (@push_back D)).
  - rewrite fold_left_push_back. reflexivity.
  - intros i a s Hi. rewrite (vget_Some x i Hi). reflexivity.
Qed.

Lemma g13_func_eq (x : vector_double D) :
  g13_func x
  = Ok (of_int 100
        * (fold_left
             (fun y a => y + (dpow (a - c0_5) (of_int 2)
                              - dcos (of_int 20 * d_pi * (a - c0_5))))
             x (of_int 0)
           + of_N (vsize x))).
Proof.
  unfold g13_func.
  rewrite (for_range_fold x
             (fun y a => y + (dpow (a - c0_5) (of_int 2)
                              - dcos (of_int 20 * d_pi * (a - c0_5))))).
  - reflexivity.
  - intros i a s Hi. rewrite (vget_Some x i Hi). reflexivity.
Qed.

Lemma g245_func_eq (x : vector_double D) :
  g245_func x
  = Ok (fold_left (fun y a => y + dpow (a - c0_5) (of_int 2)) x (of_int 0)).
Proof.
  unfold g245_func.
  rewrite (for_range_fold x (fun y a => y + dpow (a - c0_5) (of_int 2))).
  - reflexivity.
  - intros i a s Hi. rewrite (vget_Some x i Hi). reflexivity.
Qed.

Lemma g6_func_eq (x : vector_double D) :
  g6_func x = Ok (fold_left (fun y a => y + dpow a c0_1) x (of_int 0)).
Proof.
  unfold g6_func.
  rewrite (for_range_fold x (fun y a => y + dpow a c0_1)).
  - reflexivity.
  - intros i a s Hi. rewrite (vget_Some x i Hi). reflexivity.
Qed.

Lemma g7_func_eq (x : vector_double D) : g7_func x = Ok (kernel_D x).
Proof.
  unfold g7_func, kernel_D, dsum.
  rewrite (for_range_fold x dadd).
  - reflexivity.
  - intros i a s Hi. rewrite (vget_Some x i Hi). reflexivity.
Qed.

(** The dispatcher returns normally for every problem id and every vector. *)
Lemma g_func_returns (p : dtlz) (x : vector_double D) :
  returns (g_func p x) (fun _ => True).
Proof.
  unfold g_func. destruct (g_switch (m_prob_id p)).
  - rewrite g6_func_eq. apply returns_Ok. exact I.
  - rewrite g7_func_eq. apply returns_Ok. exact I.
  - rewrite g13_func_eq. apply returns_Ok. exact I.
  - rewrite g245_func_eq. apply returns_Ok. exact I.
  - apply returns_Ok. exact I.
Qed.

(** The dispatcher reads the problem id only. *)
Lemma g_func_prob_id (p q : dtlz) (x : vector_double D) :
  m_prob_id p = m_prob_id q -> g_func p x = g_func q x.
Proof. intro Hid. unfold g_func. rewrite Hid. reflexivity. Qed.

(** A problem id that passed construction selects one of the four kernel
    cases of the [switch], and [g_func] returns what that kernel returns. *)
Lemma g_func_selects_kernel (prob_id dim fdim alpha : N) (p : dtlz)
      (x : vector_double D) :
  dtlz_ctor prob_id dim fdim alpha = Ok p ->
  match g_switch (m_prob_id p) with
  | g_case_6 => g_func p x = g6_func x
  | g_case_7 => g_func p x = g7_func x
  | g_case_13 => g_func p x = g13_func x
  | g_case_245 => g_func p x = g245_func x
  | g_fallthrough => False
  end.
Proof.
  intro Hp. apply dtlz_ctor_invariant in Hp. destruct Hp as [Hid _].
  unfold g_func.
  destruct (prob_id_cases Hid) as [E | [E | [E | [E | [E | [E | E]]]]]];
    rewrite E; reflexivity.
Qed.

End DistanceFunctions.

(* ===================================================================== *)
(** ** The shape kernels: indices in bounds, length of the result *)
(* ===================================================================== *)

(** Size arithmetic without wrap-around, under the bounds in the context. *)
Ltac size_norm :=
  repeat match goal with
         | Hf : vsize ?f = _ |- context [vsize ?f] => rewrite Hf
         end;
  repeat first [ rewrite size_add_nowrap by (unfold size_modulus in *; lia)
               | rewrite size_sub_nowrap by (unfold size_modulus in *; lia) ].

Ltac size_lia := size_norm; unfold size_modulus in *; lia.

Section ShapeKernels.

Context {D : Type} `{DoubleOps D}.

Local Open Scope double_scope.

Lemma vsize_vzeros (n : N) : vsize (vzeros n) = n.
Proof. unfold vzeros. apply vsize_repeat. Qed.

Lemma vmul_assign_returns (f : vector_double D) (i : N) (e : D) :
  (i < vsize f)%N -> returns (vmul_assign f i e) (fun f' => vsize f' = vsize f).
Proof.
  intro Hi. unfold vmul_assign.
  eapply returns_bind; [apply vget_returns; exact Hi |].
  intros a _. apply vset_returns. exact Hi.
Qed.

Lemma vset_keeps (f : vector_double D) (i n : N) (a : D) :
  vsize f = n -> (i < n)%N -> returns (vset f i a) (fun f' => vsize f' = n).
Proof.
  intros Hf Hi. eapply returns_weaken; [apply vset_returns; lia |].
  intros f' Hf'. cbv beta in Hf'. congruence.
Qed.

Lemma vmul_assign_keeps (f : vector_double D) (i n : N) (e : D) :
  vsize f = n -> (i < n)%N -> returns (vmul_assign f i e) (fun f' => vsize f' = n).
Proof.
  intros Hf Hi. eapply returns_weaken; [apply vmul_assign_returns; lia |].
  intros f' Hf'. cbv beta in Hf'. congruence.
Qed.

Lemma vget_in_bounds (x : vector_double D) (i n : N) :
  vsize x = n -> (i < n)%N -> returns (vget x i) (fun _ => True).
Proof.
  intros Hx Hi. eapply returns_weaken; [apply vget_returns; lia |].
  intros a _. exact I.
Qed.

Variable p : dtlz.
Variable x : vector_double D.
Hypothesis Hfdim : (2 <= m_fdim p)%N.
Hypothesis Hdim : (m_fdim p < m_dim p)%N.
Hypothesis Hmax : (m_dim p < size_modulus)%N.
Hypothesis Hx : vsize x = m_dim p.

(** One statement of a kernel: its accesses are in bounds and the vector it
    assigns to keeps its size. *)
Ltac in_bounds :=
  lazymatch goal with
  | |- returns (vget _ _) _ => eapply vget_in_bounds; [eassumption | size_lia]
  | |- returns (vset _ _ _) _ => eapply vset_keeps; [eassumption | size_lia]
  | |- returns (vmul_assign _ _ _) _ =>
    eapply vmul_assign_keeps; [eassumption | size_lia]
  | |- returns (g_func _ _) _ => apply g_func_returns
  end.

(** The statements of a kernel in sequence; a loop keeps the size [n] of
    the vector it updates. *)
Ltac kernel_step n :=
  lazymatch goal with
  | |- returns (bind (for_range _ _ _ _) _) _ =>
    eapply returns_bind;
    [ apply for_range_preserves with (P := fun f => vsize f = n);
      [ assumption
      | let i := fresh "i" in
        let f := fresh "f" in
        let Hi := fresh "Hi" in
        let Hf := fresh "Hf" in
        intros i f Hi Hf; cbv beta in Hf |- *; revert Hi; size_norm; intro Hi ]
    | let f := fresh "f" in
      let Hf := fresh "Hf" in
      intros f Hf; cbv beta in Hf; size_norm ]
  | |- returns (bind _ _) _ =>
    eapply returns_bind;
    [ in_bounds
    | let a := fresh "a" in
      let Ha := fresh "Ha" in
      intros a Ha; cbv beta in Ha; size_norm ]
  | |- returns _ _ => in_bounds
  end.

Ltac kernel_returns n :=
  cbv zeta; rewrite collect_x_M_eq; simpl bind; rewrite ?vsize_vzeros;
  pose proof (vsize_vzeros n);
  repeat kernel_step n.

Lemma f1_objfun_impl_returns :
  returns (f1_objfun_impl p x) (fun f => vsize f = m_fdim p).
Proof. unfold f1_objfun_impl. kernel_returns (m_fdim p). Qed.

Lemma f23_objfun_impl_returns :
  returns (f23_objfun_impl p x) (fun f => vsize f = m_fdim p).
Proof. unfold f23_objfun_impl. kernel_returns (m_fdim p). Qed.

Lemma f4_objfun_impl_returns :
  returns (f4_objfun_impl p x) (fun f => vsize f = m_fdim p).
Proof. unfold f4_objfun_impl. kernel_returns (m_fdim p). Qed.

Lemma f56_objfun_impl_returns :
  returns (f56_objfun_impl p x) (fun f => vsize f = m_fdim p).
Proof. unfold f56_objfun_impl. kernel_returns (m_fdim p). Qed.

End ShapeKernels.

(* ===================================================================== *)
(** ** The DTLZ7 kernel and the distribution function *)
(* ===================================================================== *)

Section Kernel7.

Context {D : Type} `{DoubleOps D}.

Local Open Scope double_scope.

Lemma firstn_succ_snoc {A : Type} (l : list A) :
  forall (n : nat) (a : A),
    nth_error l n = Some a -> firstn (S n) l = firstn n l ++ [a].
Proof.
  induction l as [| h t IH]; intros [| n] a Hn; simpl in Hn; try discriminate.
  - injection Hn as ->. reflexivity.
  - change (h :: firstn (S n) t = h :: (firstn n t ++ [a])).
    rewrite (IH n a Hn). reflexivity.
Qed.

Lemma fold_left_map {A B C : Type} (f : C -> B -> C) (g : A -> B) (l : list A) :
  forall c, fold_left f (map g l) c = fold_left (fun c a => f c (g a)) l c.
Proof. induction l as [| a l IH]; intro c; simpl; [reflexivity | apply IH]. Qed.

(** [h7_func] on a vector [fs ++ [z]]: the sum runs over [fs], the last
    entry [z] is not read. *)
Lemma h7_func_eq (p : dtlz) (fs : vector_double D) (z g : D) :
  (vsize fs + 1 < size_modulus)%N ->
  h7_func p (fs ++ [z]) g = Ok (h_spec (m_fdim p) fs g).
Proof.
  intro Hsize. unfold h7_func, h_spec, dsum.
  rewrite vsize_app. change (vsize [z]) with 1%N.
  rewrite size_sub_nowrap by lia.
  replace (vsize fs + 1 - 1)%N with (vsize fs) by lia.
  unfold for_range. change 0%N with (N.of_nat 0).
  rewrite (for_loop_fold (fs ++ [z]) (fun y a => y + h_term g a)).
  - simpl skipn. unfold vsize. rewrite N.sub_0_r, Nat2N.id.
    rewrite firstn_app, firstn_all, Nat.sub_diag. simpl firstn.
    rewrite app_nil_r, fold_left_map. reflexivity.
  - intros i a s Hi. rewrite (vget_Some _ i Hi). reflexivity.
  - unfold vsize. rewrite length_app. simpl. lia.
Qed.

Variable p : dtlz.
Variable x : vector_double D.
Hypothesis Hfdim : (2 <= m_fdim p)%N.
Hypothesis Hdim : (m_fdim p < m_dim p)%N.
Hypothesis Hmax : (m_dim p < size_modulus)%N.
Hypothesis Hx : vsize x = m_dim p.

(** The loop [for (i = 0; i < f.size() - 1; ++i) f[i] = x[i]] on the zero
    vector. *)
Lemma f7_copy_loop :
  for_range 0 (m_fdim p - 1)
    (fun i f => xi <- vget x i ;; vset f i xi) (vzeros (m_fdim p))
  = Ok (firstn (N.to_nat (m_fdim p - 1)) x ++ [of_int 0]).
Proof.
  apply returns_eq.
  eapply returns_weaken.
  - apply for_range_returns
      with (P := fun i f =>
                   f = firstn (N.to_nat i) x
                         ++ repeat (of_int 0) (N.to_nat (m_fdim p - i))).
    + lia.
    + simpl firstn. rewrite N.sub_0_r. reflexivity.
    + intros i f Hi ->.
      eapply returns_bind; [apply vget_returns; lia |].
      intros xi Hxi. cbv beta in Hxi.
      assert (Hlen : List.length (firstn (N.to_nat i) x) = N.to_nat i).
      { apply firstn_length_le. unfold vsize in Hx. lia. }
      rewrite vset_eq by (rewrite vsize_app, vsize_repeat; unfold vsize; lia).
      apply returns_Ok.
      replace (N.to_nat (m_fdim p - i)) with (S (N.to_nat (m_fdim p - N.succ i))) by lia.
      simpl repeat. rewrite <- Hlen at 2. rewrite list_set_app.
      rewrite N2Nat.inj_succ, (firstn_succ_snoc x _ Hxi), <- app_assoc.
      reflexivity.
  - intros f ->. replace (m_fdim p - (m_fdim p - 1))%N with 1%N by lia. reflexivity.
Qed.

(** The DTLZ7 kernel in closed form. *)
Lemma f7_objfun_impl_eq :
  let n := m_fdim p in
  let fs := firstn (N.to_nat (n - 1)) x in
  f7_objfun_impl p x
  = (g0 <- g_func p (skipn (N.to_nat (n - 1)) x) ;;
     let g := of_int 1 + g0 in
     Ok (fs ++ [(of_int 1 + g) * h_spec n fs g])).
Proof.
  intros n fs. unfold f7_objfun_impl. cbv zeta.
  rewrite collect_x_M_eq. simpl bind. rewrite vsize_vzeros.
  rewrite size_sub_nowrap by lia. fold n.
  destruct (g_func p (skipn (N.to_nat (n - 1)) x)) as [g0 | e |]; simpl bind;
    try reflexivity.
  unfold n at 1 2. rewrite f7_copy_loop. simpl bind. fold n. fold fs.
  assert (Hfs : vsize fs = (n - 1)%N).
  { unfold vsize, fs. rewrite firstn_length_le; unfold vsize in Hx; lia. }
  rewrite h7_func_eq by (unfold n in *; lia). simpl bind.
  rewrite vsize_app, Hfs. change (vsize [of_int 0]) with 1%N.
  rewrite size_sub_nowrap by (unfold n in *; lia).
  rewrite vset_eq by (rewrite vsize_app, Hfs; change (vsize [of_int 0]) with 1%N; lia).
  replace (N.to_nat (n - 1 + 1 - 1)) with (List.length fs) by (unfold vsize in Hfs; lia).
  rewrite list_set_app. reflexivity.
Qed.

Lemma f7_objfun_impl_returns :
  returns (f7_objfun_impl p x) (fun f => vsize f = m_fdim p).
Proof.
  rewrite f7_objfun_impl_eq. cbv zeta.
  eapply returns_bind; [apply g_func_returns |].
  intros g0 _. apply returns_Ok.
  rewrite vsize_app. unfold vsize. rewrite firstn_length_le; simpl; unfold vsize in Hx; lia.
Qed.

End Kernel7.

(* ===================================================================== *)
(** ** Fitness evaluation *)
(* ===================================================================== *)

Section Fitness.

Context {D : Type} `{DoubleOps D}.

Local Open Scope double_scope.

Lemma convergence_metric_eq (p : dtlz) (x : vector_double D) :
  convergence_metric p x
  = (g <- g_func p (skipn (N.to_nat (size_sub (m_fdim p) 1)) x) ;; Ok (of_int 0 + g)).
Proof. unfold convergence_metric. rewrite collect_x_M_eq. reflexivity. Qed.

Lemma convergence_metric_returns (p : dtlz) (x : vector_double D) :
  returns (convergence_metric p x) (fun _ => True).
Proof.
  rewrite convergence_metric_eq.
  eapply returns_bind; [apply g_func_returns |].
  intros g _. apply returns_Ok. exact I.
Qed.

(** The distance components: from index [fdim - 1] on, that is the trailing
    [dim - fdim + 1] entries. *)
Lemma skipn_trailing (dim fdim : N) (x : vector_double D) :
  (1 <= fdim)%N -> (fdim <= dim)%N -> vsize x = dim ->
  skipn (N.to_nat (fdim - 1)) x = trailing (dim - fdim + 1) x.
Proof.
  intros Hf Hd Hx. unfold trailing. f_equal. unfold vsize in Hx. lia.
Qed.

(** C10: for an evaluator that passed construction and a decision vector of
    length [dimension], each of the five shape kernels, [fitness] and the
    convergence metric return normally, so every index they access is in
    bounds, and the objective vector has length [objective_count]. *)
Theorem fitness_accesses_in_bounds (prob_id dim fdim alpha : N) (p : dtlz)
        (x : vector_double D) :
  dtlz_ctor prob_id dim fdim alpha = Ok p ->
  vsize x = m_dim p ->
  returns (f1_objfun_impl p x) (fun f => vsize f = m_fdim p)
  /\ returns (f23_objfun_impl p x) (fun f => vsize f = m_fdim p)
  /\ returns (f4_objfun_impl p x) (fun f => vsize f = m_fdim p)
  /\ returns (f56_objfun_impl p x) (fun f => vsize f = m_fdim p)
  /\ returns (f7_objfun_impl p x) (fun f => vsize f = m_fdim p)
  /\ returns (fitness p x) (fun f => vsize f = m_fdim p)
  /\ returns (convergence_metric p x) (fun _ => True).
Proof.
  intros Hp Hx. apply dtlz_ctor_invariant in Hp.
  destruct Hp as [Hid [Hfdim [Hdim Hmax]]].
  assert (H1 : returns (f1_objfun_impl p x) (fun f => vsize f = m_fdim p))
    by (apply f1_objfun_impl_returns; assumption).
  assert (H23 : returns (f23_objfun_impl p x) (fun f => vsize f = m_fdim p))
    by (apply f23_objfun_impl_returns; assumption).
  assert (H4 : returns (f4_objfun_impl p x) (fun f => vsize f = m_fdim p))
    by (apply f4_objfun_impl_returns; assumption).
  assert (H56 : returns (f56_objfun_impl p x) (fun f => vsize f = m_fdim p))
    by (apply f56_objfun_impl_returns; assumption).
  assert (H7 : returns (f7_objfun_impl p x) (fun f => vsize f = m_fdim p))
    by (apply f7_objfun_impl_returns; assumption).
  repeat split; try assumption.
  - unfold fitness.
    destruct (prob_id_cases Hid) as [E | [E | [E | [E | [E | [E | E]]]]]];
      rewrite E; assumption.
  - apply convergence_metric_returns.
Qed.

(** C3: for problem id 7 and a decision vector of length [dimension],
    [fitness] returns the position components [x[0 .. fdim-2]] unchanged,
    followed by [(1 + g') * h(f, g')], where [g' = 1 + g(x_M)] and
    [h(f, g') = fdim - sum over i < fdim - 1 of
    (f[i] / (1 + g')) * (1 + sin (3 pi f[i]))]. *)
Theorem fitness_dtlz7 (dim fdim alpha : N) (p : dtlz) (x : vector_double D) :
  dtlz_ctor 7 dim fdim alpha = Ok p ->
  vsize x = dim ->
  exists g : D,
    g_func p (trailing (dim - fdim + 1) x) = Ok g
    /\ let g' := of_int 1 + g in
       let position := firstn (N.to_nat (fdim - 1)) x in
       fitness p x = Ok (position ++ [(of_int 1 + g') * h_spec fdim position g']).
Proof.
  intros Hp Hx.
  pose proof (dtlz_ctor_invariant _ _ _ _ Hp) as [Hid [Hfdim [Hdim Hmax]]].
  apply dtlz_ctor_Ok in Hp. destruct Hp as [-> _]. simpl in Hfdim, Hdim, Hmax.
  destruct (g_func_returns (mk_dtlz 7 alpha dim fdim) (trailing (dim - fdim + 1) x))
    as [g [Hg _]].
  exists g. split; [exact Hg |].
  cbv zeta. unfold fitness. simpl m_prob_id. cbv iota.
  rewrite f7_objfun_impl_eq by (simpl; assumption).
  cbv zeta. simpl m_fdim.
  rewrite (@skipn_trailing dim fdim x) by lia.
  rewrite Hg. reflexivity.
Qed.

End Fitness.

Lemma fitness_dtlz7_witness :
  dtlz_ctor 7 3 2 100 = Ok (mk_dtlz 7 100 3 2)
  /\ vsize [0.5; 0.25; 0.75]%R = 3%N
  /\ exists g : R,
      g_func (mk_dtlz 7 100 3 2) (trailing (3 - 2 + 1) [0.5; 0.25; 0.75]%R) = Ok g
      /\ let g' := (1 + g)%R in
         let position := firstn (N.to_nat (2 - 1)) [0.5; 0.25; 0.75]%R in
         fitness (mk_dtlz 7 100 3 2) [0.5; 0.25; 0.75]%R
         = Ok (position ++ [((1 + g') * h_spec 2 position g')%R]).
Proof.
  split; [reflexivity | split; [reflexivity |]].
  exact (@fitness_dtlz7 R _ 3%N 2%N 100%N (mk_dtlz 7 100 3 2)
           [0.5; 0.25; 0.75]%R eq_refl eq_refl).
Defined.

(* ===================================================================== *)
(** ** The convergence metric *)
(* ===================================================================== *)

(** A loop that reads [l[0]], [l[1]], ..., runs a computation [f] on each
    entry and folds the results into its state. *)
Lemma for_loop_fold_outcome {A B St : Type} (f : A -> outcome B) (step : St -> B -> St)
      (body : N -> St -> outcome St) (l : list A) (bs : list B) :
  Forall2 (fun a b => f a = Ok b) l bs ->
  forall (pre : list A) (s : St),
    (forall i a s', nth_error (pre ++ l) (N.to_nat i) = Some a ->
                    body i s' = (b <- f a ;; Ok (step s' b))) ->
    for_loop (List.length l) (vsize pre) body s = Ok (fold_left step bs s).
Proof.
  induction 1 as [| a b l bs Hab Hrest IH]; intros pre s Hbody; simpl.
  - reflexivity.
  - rewrite (Hbody (vsize pre) a s).
    2:{ unfold vsize. rewrite Nat2N.id, nth_error_app2, Nat.sub_diag by lia.
        reflexivity. }
    rewrite Hab. simpl bind.
    replace (N.succ (vsize pre)) with (vsize (pre ++ [a]))
      by (rewrite vsize_app; change (vsize [a]) with 1%N; lia).
    apply IH. intros i a' s' Hi. apply Hbody.
    rewrite <- app_assoc in Hi. exact Hi.
Qed.

Section ConvergenceMetric.

Context {D : Type} `{DoubleOps D}.

Local Open Scope double_scope.

Lemma p_distance_size_ok (p : dtlz) (x : vector_double D) :
  vsize x = m_dim p -> p_distance p x = convergence_metric p x.
Proof. intro Hx. unfold p_distance. rewrite Hx, N.eqb_refl. reflexivity. Qed.

Lemma p_distance_size_mismatch (p : dtlz) (x : vector_double D) :
  vsize x <> m_dim p -> throws_invalid_argument (p_distance p x).
Proof.
  intro Hx. unfold p_distance. apply N.eqb_neq in Hx. rewrite Hx. simpl negb.
  eexists. reflexivity.
Qed.

Lemma p_distance_throws_iff (p : dtlz) (x : vector_double D) :
  throws_invalid_argument (p_distance p x) <-> vsize x <> m_dim p.
Proof.
  split; [| apply p_distance_size_mismatch].
  intros [what Hthrow] Hx. rewrite (p_distance_size_ok _ _ Hx) in Hthrow.
  destruct (convergence_metric_returns p x) as [c [Hc _]].
  rewrite Hc in Hthrow. discriminate Hthrow.
Qed.

Lemma p_distance_members (p : dtlz) (pop : population D) :
  Forall (fun x => vsize x = m_dim p) pop ->
  exists cs, Forall2 (fun x c => p_distance p x = Ok c) pop cs.
Proof.
  induction 1 as [| x pop Hx Hpop [cs IH]].
  - exists []. constructor.
  - destruct (convergence_metric_returns p x) as [c [Hc _]].
    exists (c :: cs). constructor; [| exact IH].
    rewrite (p_distance_size_ok _ _ Hx). exact Hc.
Qed.

(** The population loop, given the metric of every member. *)
Lemma p_distance_pop_eq (p : dtlz) (pop : population D) (cs : list D) :
  Forall2 (fun x c => p_distance p x = Ok c) pop cs ->
  p_distance_pop p pop = Ok (dsum cs / of_N (vsize pop)).
Proof.
  intro Hcs. unfold p_distance_pop, pop_size, get_x, for_range.
  rewrite N.sub_0_r. unfold vsize at 1. rewrite Nat2N.id.
  change 0%N with (vsize (@nil (vector_double D))).
  rewrite (for_loop_fold_outcome (p_distance p) dadd _ Hcs).
  - reflexivity.
  - intros i a s' Hi. simpl app in Hi. rewrite (vget_Some _ i Hi). reflexivity.
Qed.

(** C7: for a non-empty population whose members all have length
    [dimension], the population-level metric is the arithmetic mean (the sum
    divided by the population size) of the per-vector metric of its
    members. *)
Theorem p_distance_pop_is_mean (p : dtlz) (pop : population D) :
  pop <> [] ->
  Forall (fun x => vsize x = m_dim p) pop ->
  exists cs : list D,
    Forall2 (fun x c => p_distance p x = Ok c) pop cs
    /\ p_distance_pop p pop = Ok (mean cs).
Proof.
  intros _ Hpop. destruct (@p_distance_members p pop Hpop) as [cs Hcs].
  exists cs. split; [exact Hcs |].
  rewrite (@p_distance_pop_eq p pop cs Hcs). unfold mean, vsize.
  rewrite (Forall2_length Hcs). reflexivity.
Qed.

(** C1, as the code has it: on an empty population the population-level
    metric throws nothing; it returns the quotient of the empty sum [0.0] by
    the population size [0]. *)
Theorem p_distance_pop_empty (p : dtlz) :
  p_distance_pop p (@nil (vector_double D) : population D) = Ok (of_int 0 / of_N 0)
  /\ ~ throws_invalid_argument (p_distance_pop p (@nil (vector_double D) : population D)).
Proof.
  split; [reflexivity |].
  intros [what Hthrow]. discriminate Hthrow.
Qed.

(** C8: two evaluators that differ only in [alpha] compute the same fitness
    for every problem id other than 4. *)
Theorem fitness_ignores_alpha (prob_id dim fdim alpha alpha' : N)
        (x : vector_double D) :
  prob_id <> 4%N ->
  fitness (mk_dtlz prob_id alpha dim fdim) x
  = fitness (mk_dtlz prob_id alpha' dim fdim) x.
Proof.
  intro Hid. unfold fitness. simpl m_prob_id.
  destruct prob_id as [| [[[q | q |] | [q | q |] |] | [[q | q |] | [q | q |] |] |]];
    try reflexivity.
  exfalso. apply Hid. reflexivity.
Qed.

End ConvergenceMetric.

Lemma p_distance_pop_is_mean_witness :
  [[0.5; 0.25; 0.75]; [0; 1; 0.5]]%R <> []
  /\ Forall (fun x : vector_double R => vsize x = m_dim (mk_dtlz 2 100 3 2))
            [[0.5; 0.25; 0.75]; [0; 1; 0.5]]%R
  /\ exists cs : list R,
      Forall2 (fun x c => p_distance (mk_dtlz 2 100 3 2) x = Ok c)
              [[0.5; 0.25; 0.75]; [0; 1; 0.5]]%R cs
      /\ p_distance_pop (mk_dtlz 2 100 3 2) [[0.5; 0.25; 0.75]; [0; 1; 0.5]]%R
         = Ok (mean cs).
Proof.
  assert (Hne : [[0.5; 0.25; 0.75]; [0; 1; 0.5]]%R <> []) by discriminate.
  assert (Hlen : Forall (fun x : vector_double R => vsize x = m_dim (mk_dtlz 2 100 3 2))
                        [[0.5; 0.25; 0.75]; [0; 1; 0.5]]%R)
    by (repeat constructor).
  split; [exact Hne | split; [exact Hlen |]].
  exact (@p_distance_pop_is_mean R _ (mk_dtlz 2 100 3 2) _ Hne Hlen).
Defined.

Lemma fitness_ignores_alpha_witness :
  7%N <> 4%N
  /\ fitness (mk_dtlz 7 100 3 2) [0.5; 0.25; 0.75]%R
     = fitness (mk_dtlz 7 1 3 2) [0.5; 0.25; 0.75]%R.
Proof.
  assert (Hid : 7%N <> 4%N) by discriminate.
  split; [exact Hid |].
  exact (@fitness_ignores_alpha R _ 7%N 3%N 2%N 100%N 1%N [0.5; 0.25; 0.75]%R Hid).
Defined.

(* ===================================================================== *)
(** ** Real-number arithmetic *)
(* ===================================================================== *)

Section RealArithmetic.

Local Open Scope R_scope.

Lemma Int_part_IZR (z : Z) : Int_part (IZR z) = z.
Proof. symmetry. apply Int_part_spec. lra. Qed.

(** [std::pow] with an integral exponent. *)
Lemma Rpow_IZR (x : R) (z : Z) : Rpow x (IZR z) = powerRZ x z.
Proof.
  unfold Rpow. rewrite Int_part_IZR.
  destruct (Req_dec_T (IZR z) (IZR z)) as [_ | Hne]; [reflexivity |].
  exfalso. apply Hne. reflexivity.
Qed.

Lemma fold_left_Rplus (l : list R) (a : R) : fold_left Rplus l a = a + Rsum l.
Proof.
  revert a. induction l as [| b l IH]; intro a; simpl.
  - lra.
  - rewrite IH. lra.
Qed.

Lemma dsum_Rsum (l : list R) : dsum l = Rsum l.
Proof. unfold dsum. simpl. rewrite fold_left_Rplus. lra. Qed.

Lemma Rsum_zeros (l : list R) : Forall (fun a => a = 0) l -> Rsum l = 0.
Proof.
  induction 1 as [| a l Ha Hl IH]; simpl; [reflexivity |].
  rewrite Ha, IH. lra.
Qed.

Lemma of_N_vsize (l : list R) : of_N (vsize l) = INR (List.length l).
Proof.
  unfold of_N, vsize. simpl. rewrite nat_N_Z. symmetry. apply INR_IZR_INZ.
Qed.

Lemma Rpow_square (a : R) : Rpow a 2 = a * a.
Proof. change 2 with (IZR 2). rewrite Rpow_IZR. simpl. lra. Qed.

Lemma Rpow_tenth_nonneg (a : R) : 0 <= Rpow a 0.1.
Proof.
  unfold Rpow.
  assert (Hint : Int_part 0.1 = 0%Z) by (symmetry; apply Int_part_spec; lra).
  rewrite Hint.
  destruct (Req_dec_T 0.1 0) as [Habs | _]; [lra |].
  destruct (Req_dec_T a 0) as [_ | _]; [lra |].
  unfold Rpower. left. apply exp_pos.
Qed.

(** A sum whose terms are all at least [b]. *)
Lemma fold_left_add_ge (t : R -> R) (b : R) (l : list R) :
  (forall a, In a l -> b <= t a) ->
  forall y, y + INR (List.length l) * b <= fold_left (fun y a => y + t a) l y.
Proof.
  induction l as [| a l IH]; intros Hb y.
  - simpl. lra.
  - simpl fold_left. change (List.length (a :: l)) with (S (List.length l)).
    rewrite S_INR.
    assert (Ha : b <= t a) by (apply Hb; left; reflexivity).
    eapply Rle_trans; [| apply IH; intros a' Ha'; apply Hb; right; exact Ha'].
    lra.
Qed.

(** On non-negative entries (in particular inside the box [0, 1]) each of
    the four kernels is non-negative. *)
Lemma g_kernels_nonneg (p : dtlz) (x : vector_double R) :
  Forall (fun xi => 0 <= xi) x ->
  g_switch (m_prob_id p) <> g_fallthrough ->
  returns (g_func p x) (fun g => 0 <= g).
Proof.
  intros Hx Hcase. unfold g_func.
  destruct (g_switch (m_prob_id p)); [| | | | contradiction].
  - rewrite g6_func_eq. apply returns_Ok. simpl.
    pose proof (@fold_left_add_ge (fun a => Rpow a 0.1) 0 x
                  (fun a _ => Rpow_tenth_nonneg a) 0) as Hge.
    lra.
  - rewrite g7_func_eq. apply returns_Ok. unfold kernel_D.
    rewrite dsum_Rsum, of_N_vsize. simpl.
    assert (Hsum : 0 <= Rsum x).
    { clear Hcase. induction Hx as [| a l Ha Hl IH]; simpl; lra. }
    destruct x as [| a l].
    + simpl. lra.
    + apply Rmult_le_pos; [| exact Hsum].
      apply Rlt_le, Rdiv_lt_0_compat; [lra |].
      apply lt_0_INR. simpl. lia.
  - rewrite g13_func_eq. apply returns_Ok. rewrite of_N_vsize. simpl.
    pose proof (@fold_left_add_ge
                  (fun a => Rpow (a - 0.5) 2 - cos (20 * PI * (a - 0.5))) (-1) x) as Hge.
    assert (Hterm : forall a, In a x ->
                              -1 <= Rpow (a - 0.5) 2 - cos (20 * PI * (a - 0.5))).
    { intros a _. rewrite Rpow_square.
      pose proof (COS_bound (20 * PI * (a - 0.5))) as [_ Hcos].
      pose proof (Rle_0_sqr (a - 0.5)) as Hsq. unfold Rsqr in Hsq. lra. }
    specialize (Hge Hterm 0). lra.
  - rewrite g245_func_eq. apply returns_Ok. simpl.
    pose proof (@fold_left_add_ge (fun a => Rpow (a - 0.5) 2) 0 x) as Hge.
    assert (Hterm : forall a, In a x -> 0 <= Rpow (a - 0.5) 2).
    { intros a _. rewrite Rpow_square.
      pose proof (Rle_0_sqr (a - 0.5)) as Hsq. unfold Rsqr in Hsq. lra. }
    specialize (Hge Hterm 0). lra.
Qed.

(** C2: for problem id 7 and a non-empty vector [x_M] of distance
    components, [g] returns [(9 / |x_M|) * sum of the entries], without the
    [+1] of the literature, so that its value is exactly 0 when every entry
    is 0. *)
Theorem g7_without_offset (p : dtlz) (x_M : vector_double R) :
  m_prob_id p = 7%N ->
  x_M <> [] ->
  g_func p x_M = Ok (9 / INR (List.length x_M) * Rsum x_M)
  /\ g_func p x_M <> Ok (1 + 9 / INR (List.length x_M) * Rsum x_M)
  /\ (Forall (fun xi => xi = 0) x_M -> g_func p x_M = Ok 0).
Proof.
  intros Hid _.
  assert (Hg : g_func p x_M = Ok (9 / INR (List.length x_M) * Rsum x_M)).
  { unfold g_func. rewrite Hid. simpl g_switch. cbv iota.
    rewrite g7_func_eq. unfold kernel_D.
    rewrite dsum_Rsum, of_N_vsize. reflexivity. }
  split; [exact Hg | split].
  - rewrite Hg. intro Heq. injection Heq as Heq. lra.
  - intro Hzero. rewrite Hg, (Rsum_zeros Hzero). f_equal. lra.
Qed.

(** C9: for an evaluator that passed construction, the [switch] of [g_func]
    selects one of its four kernel cases and never falls through to the
    [return -1] after it: for every vector, over every arithmetic, [g_func]
    returns what the selected kernel returns.  On real numbers, and for a
    vector of non-negative entries, that value is non-negative, so it is
    not the number -1 either. *)
Theorem g_func_never_falls_through (prob_id dim fdim alpha : N) (p : dtlz) :
  dtlz_ctor prob_id dim fdim alpha = Ok p ->
  g_switch (m_prob_id p) <> g_fallthrough
  /\ (forall (D : Type) (ops : DoubleOps D) (x : vector_double D),
         match g_switch (m_prob_id p) with
         | g_case_6 => g_func p x = g6_func x
         | g_case_7 => g_func p x = g7_func x
         | g_case_13 => g_func p x = g13_func x
         | g_case_245 => g_func p x = g245_func x
         | g_fallthrough => False
         end)
  /\ (forall x : vector_double R,
         Forall (fun xi => 0 <= xi) x ->
         returns (g_func p x) (fun g => 0 <= g /\ g <> -1)).
Proof.
  intro Hp.
  assert (Hcase : g_switch (m_prob_id p) <> g_fallthrough).
  { intro Hfall.
    pose proof (@g_func_selects_kernel R _ _ _ _ _ p (@nil R) Hp) as Hsel.
    rewrite Hfall in Hsel. exact Hsel. }
  split; [exact Hcase | split].
  - intros D ops x. exact (@g_func_selects_kernel D ops _ _ _ _ p x Hp).
  - intros x Hx.
    eapply returns_weaken; [apply (@g_kernels_nonneg p x Hx Hcase) |].
    intros g Hg. cbv beta in Hg. split; [exact Hg | lra].
Qed.

End RealArithmetic.

(* ===================================================================== *)
(** ** The convergence metric and scenario A on real numbers *)
(* ===================================================================== *)

(** DTLZ1 with three variables and two objectives, step by step. *)
Lemma f1_objfun_impl_3_2 {D : Type} `{DoubleOps D} (prob_id alpha : N) (a b c : D) :
  let p := mk_dtlz prob_id alpha 3 2 in
  f1_objfun_impl p [a; b; c]
  = (g <- g_func p [b; c] ;;
     Ok [dmul (dmul c0_5 (dadd (of_int 1) g)) a;
         dmul (dmul c0_5 (dsub (of_int 1) a)) (dadd (of_int 1) g)]).
Proof.
  intro p. unfold f1_objfun_impl. cbv zeta.
  rewrite collect_x_M_eq. simpl bind.
  change (skipn (N.to_nat (size_sub (vsize (vzeros (m_fdim p))) 1)) [a; b; c])
    with [b; c].
  destruct (g_func p [b; c]) as [g | e |]; reflexivity.
Qed.

Section ScenarioA.

Local Open Scope R_scope.

(** C5: the per-vector convergence metric throws [std::invalid_argument]
    if and only if the length of the vector differs from [dimension], and
    otherwise returns [g] of the trailing [dimension - objective_count + 1]
    entries of the vector, [g] being the dispatcher [g_func] that the
    fitness kernels call. *)
Theorem p_distance_contract (prob_id dim fdim alpha : N) (p : dtlz)
        (x : vector_double R) :
  dtlz_ctor prob_id dim fdim alpha = Ok p ->
  (throws_invalid_argument (p_distance p x) <-> vsize x <> m_dim p)
  /\ (vsize x = m_dim p ->
      p_distance p x = g_func p (trailing (m_dim p - m_fdim p + 1) x)).
Proof.
  intro Hp. apply dtlz_ctor_invariant in Hp.
  destruct Hp as [Hid [Hfdim [Hdim Hmax]]].
  split; [apply p_distance_throws_iff |].
  intro Hx. rewrite (p_distance_size_ok _ _ Hx), convergence_metric_eq.
  rewrite size_sub_nowrap by lia.
  rewrite (@skipn_trailing R (m_dim p) (m_fdim p) x) by lia.
  destruct (g_func p (trailing (m_dim p - m_fdim p + 1) x)) as [g | e |];
    simpl; try reflexivity.
  f_equal. lra.
Qed.

Lemma g13_at_half : g13_func [0.5; 0.5] = Ok 0.
Proof.
  rewrite g13_func_eq. simpl.
  replace (0.5 - 0.5) with 0 by lra.
  rewrite Rmult_0_r, cos_0.
  change 2 with (IZR 2) at 1 2. rewrite !Rpow_IZR. simpl powerRZ.
  f_equal. lra.
Qed.

(** C6: the evaluator constructed with problem id 1, dimension 3 and 2
    objectives maps the decision vector [0.5, 0.5, 0.5] to an objective
    vector within 1e-9 of [0.25, 0.25], and the convergence metric of that
    decision vector is 0. *)
Theorem scenario_A :
  exists p : dtlz,
    dtlz_ctor 1 3 2 100 = Ok p
    /\ (exists f0 f1 : R,
           fitness p [0.5; 0.5; 0.5] = Ok [f0; f1]
           /\ Rabs (f0 - 0.25) <= 1e-9
           /\ Rabs (f1 - 0.25) <= 1e-9)
    /\ p_distance p [0.5; 0.5; 0.5] = Ok 0.
Proof.
  exists (mk_dtlz 1 100 3 2). split; [reflexivity |].
  assert (Hg : g_func (mk_dtlz 1 100 3 2) [0.5; 0.5] = Ok 0) by apply g13_at_half.
  split.
  - exists 0.25, 0.25. split.
    + unfold fitness. simpl m_prob_id. cbv iota.
      rewrite f1_objfun_impl_3_2. cbv zeta. rewrite Hg. simpl.
      f_equal. f_equal; [lra | f_equal; lra].
    + replace (0.25 - 0.25) with 0 by lra. rewrite Rabs_R0. split; lra.
  - rewrite p_distance_size_ok by reflexivity.
    rewrite convergence_metric_eq.
    change (skipn (N.to_nat (size_sub (m_fdim (mk_dtlz 1 100 3 2)) 1)) [0.5; 0.5; 0.5])
      with [0.5; 0.5].
    rewrite Hg. simpl. f_equal. lra.
Qed.

End ScenarioA.

(* ===================================================================== *)
(** ** Runs of the code on concrete inputs *)
(* ===================================================================== *)

(** C1 as the spec states it (an empty population makes the
    population-level metric fail with an error) does not hold of the code:
    for the default evaluator and the empty population it returns
    [0.0 / 0], and throws nothing. *)
Lemma p_distance_pop_empty_returns :
  p_distance_pop (mk_dtlz 1 100 7 3) (@nil (vector_double R) : population R) = Ok (0 / 0)%R
  /\ ~ throws_invalid_argument
         (p_distance_pop (mk_dtlz 1 100 7 3) (@nil (vector_double R) : population R)).
Proof.
  split; [reflexivity |].
  intros [what Hthrow]. discriminate Hthrow.
Qed.

Lemma g7_without_offset_witness :
  m_prob_id (mk_dtlz 7 100 3 2) = 7%N
  /\ [0; 0]%R <> []
  /\ g_func (mk_dtlz 7 100 3 2) [0; 0]%R
     = Ok (9 / INR (List.length [0; 0]%R) * Rsum [0; 0])%R
  /\ g_func (mk_dtlz 7 100 3 2) [0; 0]%R
     <> Ok (1 + 9 / INR (List.length [0; 0]%R) * Rsum [0; 0])%R
  /\ (Forall (fun xi => xi = 0%R) [0; 0]%R
      -> g_func (mk_dtlz 7 100 3 2) [0; 0]%R = Ok 0%R).
Proof.
  assert (Hne : [0; 0]%R <> []) by discriminate.
  split; [reflexivity | split; [exact Hne |]].
  exact (@g7_without_offset (mk_dtlz 7 100 3 2) [0; 0]%R eq_refl Hne).
Defined.

Lemma p_distance_contract_witness :
  dtlz_ctor 2 3 2 100 = Ok (mk_dtlz 2 100 3 2)
  /\ (throws_invalid_argument (p_distance (mk_dtlz 2 100 3 2) [0.5; 0.25; 0.75]%R)
      <-> vsize [0.5; 0.25; 0.75]%R <> m_dim (mk_dtlz 2 100 3 2))
  /\ (vsize [0.5; 0.25; 0.75]%R = m_dim (mk_dtlz 2 100 3 2) ->
      p_distance (mk_dtlz 2 100 3 2) [0.5; 0.25; 0.75]%R
      = g_func (mk_dtlz 2 100 3 2)
          (trailing (m_dim (mk_dtlz 2 100 3 2) - m_fdim (mk_dtlz 2 100 3 2) + 1)
                    [0.5; 0.25; 0.75]%R)).
Proof.
  split; [reflexivity |].
  exact (@p_distance_contract 2%N 3%N 2%N 100%N (mk_dtlz 2 100 3 2)
           [0.5; 0.25; 0.75]%R eq_refl).
Defined.

Lemma g_func_never_falls_through_witness :
  dtlz_ctor 5 3 2 100 = Ok (mk_dtlz 5 100 3 2)
  /\ g_switch (m_prob_id (mk_dtlz 5 100 3 2)) <> g_fallthrough
  /\ g_func (mk_dtlz 5 100 3 2) [0.25; 0.75]%R = g245_func [0.25; 0.75]%R.
Proof.
  split; [reflexivity |].
  pose proof (@g_func_never_falls_through 5%N 3%N 2%N 100%N (mk_dtlz 5 100 3 2)
                eq_refl) as [Hcase [Hsel _]].
  split; [exact Hcase | exact (Hsel R _ [0.25; 0.75]%R)].
Defined.

Lemma fitness_accesses_in_bounds_witness :
  dtlz_ctor 6 3 2 100 = Ok (mk_dtlz 6 100 3 2)
  /\ vsize [0.5; 0.25; 0.75]%R = m_dim (mk_dtlz 6 100 3 2)
  /\ returns (fitness (mk_dtlz 6 100 3 2) [0.5; 0.25; 0.75]%R)
             (fun f => vsize f = m_fdim (mk_dtlz 6 100 3 2)).
Proof.
  split; [reflexivity | split; [reflexivity |]].
  exact (proj1 (proj2 (proj2 (proj2 (proj2 (proj2
           (@fitness_accesses_in_bounds R _ 6%N 3%N 2%N 100%N (mk_dtlz 6 100 3 2)
              [0.5; 0.25; 0.75]%R eq_refl eq_refl))))))).
Defined.

(** The constructor on the arguments the spec lists as invalid. *)
Example dtlz_ctor_prob_id_0 :
  dtlz_ctor 0 7 3 100
  = Throw (invalid_argument
             "DTLZ test suite contains seven (prob_id = [1 ... 7]) problems, prob_id=0 was detected").
Proof. reflexivity. Qed.

Example dtlz_ctor_prob_id_8 :
  dtlz_ctor 8 7 3 100
  = Throw (invalid_argument
             "DTLZ test suite contains seven (prob_id = [1 ... 7]) problems, prob_id=8 was detected").
Proof. reflexivity. Qed.

Example dtlz_ctor_fdim_1 :
  dtlz_ctor 1 7 1 100
  = Throw (invalid_argument
             "DTLZ test problem have a minimum of 2 objectives: fdim=1 was detected").
Proof. reflexivity. Qed.

Example dtlz_ctor_dim_le_fdim :
  dtlz_ctor 1 3 3 100
  = Throw (invalid_argument
             "The problem dimension has to be larger than the number of objectives.").
Proof. reflexivity. Qed.

Example dtlz_ctor_default : dtlz_ctor 1 7 3 100 = Ok (mk_dtlz 1 100 7 3).
Proof. reflexivity. Qed.

(** The operations of DTLZ1 on [a, b, c, d], with three objectives. *)
Example fitness_dtlz1_trace :
  fitness (mk_dtlz 1 100 4 3) [SVar "a"; SVar "b"; SVar "c"; SVar "d"]
  = let y := SAdd (SAdd (SInt 0)
                        (SSub (SPow (SSub (SVar "c") SHalf) (SInt 2))
                              (SCos (SMul (SMul (SInt 20) SPi) (SSub (SVar "c") SHalf)))))
                  (SSub (SPow (SSub (SVar "d") SHalf) (SInt 2))
                        (SCos (SMul (SMul (SInt 20) SPi) (SSub (SVar "d") SHalf)))) in
    let g := SMul (SInt 100) (SAdd y (SInt 2)) in
    let s := SMul SHalf (SAdd (SInt 1) g) in
    Ok [SMul (SMul s (SVar "a")) (SVar "b");
        SMul (SMul s (SVar "a")) (SSub (SInt 1) (SVar "b"));
        SMul (SMul SHalf (SSub (SInt 1) (SVar "a"))) (SAdd (SInt 1) g)].
Proof. reflexivity. Qed.

(** The operations of DTLZ2 on [a, b, c], with two objectives. *)
Example fitness_dtlz2_trace :
  fitness (mk_dtlz 2 100 3 2) [SVar "a"; SVar "b"; SVar "c"]
  = let g := SAdd (SAdd (SInt 0) (SPow (SSub (SVar "b") SHalf) (SInt 2)))
                  (SPow (SSub (SVar "c") SHalf) (SInt 2)) in
    Ok [SMul (SAdd (SInt 1) g) (SCos (SMul (SVar "a") SPiHalf));
        SMul (SAdd (SInt 1) g) (SSin (SMul (SVar "a") SPiHalf))].
Proof. reflexivity. Qed.

(** For problem id 4 the exponent [alpha] does reach the result. *)
Example fitness_dtlz4_uses_alpha :
  fitness (mk_dtlz 4 100 3 2) [SVar "a"; SVar "b"; SVar "c"]
  <> fitness (mk_dtlz 4 1 3 2) [SVar "a"; SVar "b"; SVar "c"].
Proof. vm_compute. discriminate. Qed.

(** A decision vector of the wrong length: [p_distance] throws, [fitness]
    reads past the end of the vector. *)
Example p_distance_wrong_length :
  p_distance (mk_dtlz 7 100 4 3) [SVar "a"; SVar "b"; SVar "c"]
  = Throw (invalid_argument
             "The size of the decision vector should be 4 while 3 was detected").
Proof. reflexivity. Qed.

Example fitness_wrong_length :
  fitness (mk_dtlz 7 100 4 3) [SVar "a"] = Undefined.
Proof. reflexivity. Qed.

(* ===================================================================== *)
(** ** The shape kernels in closed form *)
(* ===================================================================== *)

Lemma bind_Ok {A B : Type} (a : A) (k : A -> outcome B) : (x <- Ok a ;; k x) = k a.
Proof. reflexivity. Qed.

Lemma skipn_cons_nth {A : Type} (l : list A) :
  forall k, (k < List.length l)%nat ->
            exists a, nth_error l k = Some a /\ skipn k l = a :: skipn (S k) l.
Proof.
  induction l as [| h t IH]; intros [| k] Hk; simpl in Hk; try lia.
  - exists h. split; reflexivity.
  - destruct (IH k) as [a [Ha Hs]]; [lia |]. exists a. split; assumption.
Qed.

Lemma skipn_repeat {A : Type} (a : A) (m k : nat) :
  skipn k (repeat a m) = repeat a (m - k).
Proof.
  revert k. induction m as [| m IH]; intros [| k]; simpl; try reflexivity.
  apply IH.
Qed.

Section ShapeLoops.

Context {D : Type} `{DoubleOps D}.

Local Open Scope double_scope.

Lemma vget_app (pre post : list D) (z : D) (i : N) :
  vsize pre = i -> vget (pre ++ z :: post) i = Ok z.
Proof.
  intros <-. apply vget_Some. unfold vsize. rewrite Nat2N.id.
  rewrite nth_error_app2, Nat.sub_diag by lia. reflexivity.
Qed.

Lemma vset_app (pre post : list D) (z a : D) (i : N) :
  vsize pre = i -> vset (pre ++ z :: post) i a = Ok (pre ++ a :: post).
Proof.
  intros <-. rewrite vset_eq.
  - unfold vsize. rewrite Nat2N.id, list_set_app. reflexivity.
  - rewrite vsize_app. unfold vsize. simpl List.length. lia.
Qed.

Lemma vmul_assign_app (pre post : list D) (z e : D) (i : N) :
  vsize pre = i -> vmul_assign (pre ++ z :: post) i e = Ok (pre ++ (z * e) :: post).
Proof.
  intro Hi. unfold vmul_assign. rewrite (vget_app _ _ _ Hi). simpl bind.
  apply vset_app. exact Hi.
Qed.

Lemma vget_hd (x : vector_double D) :
  (1 <= vsize x)%N -> vget x 0 = Ok (hd (of_int 0) x).
Proof.
  destruct x as [| x0 xs]; unfold vsize; simpl; [lia | reflexivity].
Qed.

Lemma shape_product_succ (c : D -> D) (v : list D) (r : nat) (init b : D) :
  nth_error v r = Some b ->
  shape_product c v (S r) init = shape_product c v r init * c b.
Proof.
  intro Hb. unfold shape_product. rewrite (firstn_succ_snoc v _ Hb).
  rewrite fold_left_app. reflexivity.
Qed.

(** The loop [for (j = 0; j < m; ++j) f[i] *= c(v[j])]. *)
Lemma product_loop (c : D -> D) (v pre post : list D) (i m : N) (a : D) :
  vsize pre = i -> (m <= vsize v)%N ->
  for_range 0 m (fun j f => b <- vget v j ;; vmul_assign f i (c b)) (pre ++ a :: post)
  = Ok (pre ++ shape_product c v (N.to_nat m) a :: post).
Proof.
  intros Hi Hm. apply returns_eq.
  apply for_range_returns
    with (P := fun j f => f = pre ++ shape_product c v (N.to_nat j) a :: post).
  - lia.
  - reflexivity.
  - intros j f Hj ->.
    eapply returns_bind; [apply vget_returns; lia |].
    intros b Hb. cbv beta in Hb.
    rewrite (vmul_assign_app _ _ _ _ Hi). apply returns_Ok.
    rewrite N2Nat.inj_succ, (@shape_product_succ c v _ a b Hb). reflexivity.
Qed.

(** The loop over the objectives [1 .. n-2]. *)
Lemma shape_outer_loop (init : D) (c l : D -> D) (v zs : list D) (e0 : D) :
  let n := S (List.length zs) in
  (1 <= List.length zs)%nat -> (N.of_nat n < size_modulus)%N ->
  (List.length zs <= List.length v)%nat ->
  e0 = shape_objective init c l v n 0 ->
  for_range 1 (N.of_nat (List.length zs))
    (fun i f =>
       f <- vset f i init ;;
       f <- for_range 0 (size_sub (vsize f) (size_add i 1))
              (fun j f => a <- vget v j ;; vmul_assign f i (c a)) f ;;
       a <- vget v (size_sub (vsize f) (size_add i 1)) ;;
       vmul_assign f i (l a)) (e0 :: zs)
  = Ok (shape_front init c l v n ++ skipn (List.length zs - 1) zs).
Proof.
  intros n Hzs Hmax Hv He0. apply returns_eq.
  eapply returns_weaken.
  - apply for_range_returns
      with (P := fun i f =>
                   f = map (shape_objective init c l v n) (seq 0 (N.to_nat i))
                         ++ skipn (N.to_nat i - 1) zs).
    + lia.
    + simpl. rewrite He0. reflexivity.
    + intros i f Hi ->.
      set (pre := map (shape_objective init c l v n) (seq 0 (N.to_nat i))).
      assert (Hpre : vsize pre = i).
      { unfold vsize, pre. rewrite length_map, length_seq. lia. }
      destruct (@skipn_cons_nth D zs (N.to_nat i - 1)) as [z [_ Hskip]]; [lia |].
      rewrite Hskip. replace (S (N.to_nat i - 1)) with (N.to_nat i) by lia.
      set (post := skipn (N.to_nat i) zs).
      assert (Hsize : forall a, vsize (pre ++ a :: post) = N.of_nat n).
      { intro a. rewrite vsize_app, Hpre. unfold vsize, post.
        simpl List.length. rewrite length_skipn. unfold n. lia. }
      set (r := (N.of_nat n - (i + 1))%N).
      assert (Hr : N.to_nat r = (n - 1 - N.to_nat i)%nat) by (unfold r; lia).
      rewrite (vset_app _ _ _ _ Hpre), bind_Ok. cbv beta.
      rewrite Hsize, size_add_nowrap by (unfold n in *; lia).
      rewrite size_sub_nowrap by (unfold n in *; lia). fold r.
      rewrite (product_loop c v _ _ _ Hpre) by (unfold vsize, r, n; lia).
      rewrite bind_Ok. cbv beta.
      rewrite Hsize, size_sub_nowrap by (unfold n in *; lia). fold r.
      destruct (@vget_returns D v r) as [b [Hget Hb]]; [unfold vsize, r, n; lia |].
      rewrite Hget, bind_Ok. cbv beta.
      rewrite (vmul_assign_app _ _ _ _ Hpre). apply returns_Ok.
      rewrite N2Nat.inj_succ, seq_S, map_app, <- app_assoc.
      fold pre. change (0 + N.to_nat i)%nat with (N.to_nat i).
      replace (S (N.to_nat i) - 1)%nat with (N.to_nat i) by lia.
      fold post. f_equal. change (map ?f [?a] ++ post) with (f a :: post).
      f_equal. rewrite Hr in *. clearbody pre post r.
      unfold shape_objective.
      destruct (N.to_nat i) as [| i'] eqn:Ei; [lia |].
      rewrite (nth_error_nth _ _ _ Hb). reflexivity.
  - intros f ->. unfold shape_front. rewrite Nat2N.id. unfold n.
    replace (S (List.length zs) - 1)%nat with (List.length zs) by lia. reflexivity.
Qed.

Lemma shape_then_eq {A : Type} (init : D) (c l : D -> D) (v zs : list D) (z0 : D)
      (K : vector_double D -> outcome A) :
  let n := S (List.length zs) in
  (1 <= List.length zs)%nat -> (N.of_nat n < size_modulus)%N ->
  (List.length zs <= List.length v)%nat ->
  shape_then init c l v (z0 :: zs) K
  = K (shape_front init c l v n ++ skipn (List.length zs - 1) zs).
Proof.
  intros n Hzs Hmax Hv. unfold shape_then.
  change (z0 :: zs) with ([] ++ z0 :: zs).
  rewrite (@vset_app [] zs z0 init 0%N eq_refl). simpl bind. simpl app.
  assert (Hsize : forall a, vsize (a :: zs) = N.of_nat n).
  { intro a. unfold vsize, n. reflexivity. }
  rewrite Hsize, size_sub_nowrap by (unfold n in *; lia).
  replace (N.of_nat n - 1)%N with (N.of_nat (List.length zs)) by (unfold n; lia).
  change (init :: zs) with ([] ++ init :: zs).
  rewrite (@product_loop c v [] zs 0%N _ init eq_refl) by (unfold vsize; lia).
  simpl bind. simpl app. rewrite Hsize, size_sub_nowrap by (unfold n in *; lia).
  replace (N.of_nat n - 1)%N with (N.of_nat (List.length zs)) by (unfold n; lia).
  rewrite (@shape_outer_loop init c l v zs _ Hzs Hmax Hv).
  - reflexivity.
  - rewrite Nat2N.id. unfold shape_objective, n.
    replace (S (List.length zs) - 1)%nat with (List.length zs) by lia. reflexivity.
Qed.

Lemma shape_kernel_eq (init : D) (c l fin : D -> D) (v w : vector_double D) (n : N)
      (w0 : D) :
  (2 <= n)%N -> (n < size_modulus)%N -> (n - 1 <= vsize v)%N ->
  vget w 0 = Ok w0 ->
  shape_kernel init c l fin v w n
  = Ok (shape_front init c l v (N.to_nat n) ++ [fin w0]).
Proof.
  intros Hn Hmax Hv Hw. unfold shape_kernel, vzeros.
  replace (N.to_nat n) with (S (N.to_nat n - 1)) at 1 by lia.
  simpl repeat.
  rewrite shape_then_eq by (rewrite ?repeat_length; unfold vsize in *; lia).
  rewrite repeat_length.
  rewrite Hw, bind_Ok. cbv beta.
  rewrite skipn_repeat.
  replace (N.to_nat n - 1 - (N.to_nat n - 1 - 1))%nat with 1%nat by lia.
  replace (S (N.to_nat n - 1)) with (N.to_nat n) by lia.
  simpl repeat.
  assert (Hfront : vsize (shape_front init c l v (N.to_nat n)) = (n - 1)%N).
  { unfold vsize, shape_front. rewrite length_map, length_seq. lia. }
  rewrite vsize_app, Hfront. change (vsize [of_int 0]) with 1%N.
  rewrite size_sub_nowrap by lia.
  apply vset_app. rewrite Hfront. lia.
Qed.

(** The loop of [f56_objfun_impl] that fills [theta[1 .. n-1]]. *)
Lemma theta_loop (phi : D -> D) (x0 : D) (xs : list D) (n : nat) :
  (1 <= n)%nat -> (n - 1 <= List.length xs)%nat ->
  for_range 1 (N.of_nat n)
    (fun i th => xi <- vget (x0 :: xs) i ;; vset th i (phi xi))
    (x0 :: repeat (of_int 0) (n - 1))
  = Ok (x0 :: map phi (firstn (n - 1) xs)).
Proof.
  intros Hn Hxs. apply returns_eq.
  eapply returns_weaken.
  - apply for_range_returns
      with (P := fun i th =>
                   th = (x0 :: map phi (firstn (N.to_nat i - 1) xs))
                          ++ repeat (of_int 0) (n - N.to_nat i)).
    + lia.
    + reflexivity.
    + intros i th Hi ->.
      set (pre := x0 :: map phi (firstn (N.to_nat i - 1) xs)).
      assert (Hpre : vsize pre = i).
      { unfold vsize, pre. simpl List.length.
        rewrite length_map, firstn_length_le by lia. lia. }
      destruct (@vget_returns D (x0 :: xs) i) as [b [Hget Hb]];
        [unfold vsize; simpl List.length; lia |].
      rewrite Hget, bind_Ok. cbv beta.
      replace (n - N.to_nat i)%nat with (S (n - N.to_nat (N.succ i))) by lia.
      simpl repeat. rewrite (vset_app _ _ _ _ Hpre). apply returns_Ok.
      unfold pre. rewrite N2Nat.inj_succ.
      replace (S (N.to_nat i) - 1)%nat with (S (N.to_nat i - 1)) by lia.
      replace (N.to_nat i) with (S (N.to_nat i - 1)) in Hb by lia.
      simpl nth_error in Hb.
      rewrite (firstn_succ_snoc xs _ Hb), map_app, <- !app_comm_cons, <- app_assoc.
      reflexivity.
  - intros th ->. rewrite Nat2N.id, Nat.sub_diag. simpl repeat.
    rewrite app_nil_r. reflexivity.
Qed.

(** Each kernel is its distance function followed by the shared loops. *)
Lemma f1_as_kernel (p : dtlz) (x : vector_double D) :
  f1_objfun_impl p x
  = (x_M <- collect_x_M (size_sub (vsize (vzeros (m_fdim p))) 1) x ;;
     g <- g_func p x_M ;;
     shape_kernel (c0_5 * (of_int 1 + g)) (fun a => a) (fun a => of_int 1 - a)
       (fun a => c0_5 * (of_int 1 - a) * (of_int 1 + g)) x x (m_fdim p)).
Proof. reflexivity. Qed.

Lemma f23_as_kernel (p : dtlz) (x : vector_double D) :
  f23_objfun_impl p x
  = (x_M <- collect_x_M (size_sub (vsize (vzeros (m_fdim p))) 1) x ;;
     g <- g_func p x_M ;;
     shape_kernel (of_int 1 + g) (fun a => dcos (a * d_pi_half))
       (fun a => dsin (a * d_pi_half))
       (fun a => (of_int 1 + g) * dsin (a * d_pi_half)) x x (m_fdim p)).
Proof. reflexivity. Qed.

Lemma f4_as_kernel (p : dtlz) (x : vector_double D) :
  f4_objfun_impl p x
  = (x_M <- collect_x_M (size_sub (vsize (vzeros (m_fdim p))) 1) x ;;
     g <- g_func p x_M ;;
     shape_kernel (of_int 1 + g)
       (fun a => dcos (dpow a (of_N (m_alpha p)) * d_pi_half))
       (fun a => dsin (dpow a (of_N (m_alpha p)) * d_pi_half))
       (fun a => (of_int 1 + g) * dsin (dpow a (of_N (m_alpha p)) * d_pi_half))
       x x (m_fdim p)).
Proof. reflexivity. Qed.

Lemma f56_as_kernel (p : dtlz) (x : vector_double D) :
  f56_objfun_impl p x
  = (x_M <- collect_x_M (size_sub (vsize (vzeros (m_fdim p))) 1) x ;;
     g <- g_func p x_M ;;
     x0 <- vget x 0 ;;
     theta <- vset (vzeros (vsize (vzeros (m_fdim p)))) 0 x0 ;;
     theta <- for_range 1 (vsize (vzeros (m_fdim p)))
                (fun i theta =>
                   xi <- vget x i ;;
                   vset theta i
                     ((fun a => of_int 1 / (of_int 2 * (of_int 1 + g))
                                + ((g * a) / (of_int 1 + g))) xi)) theta ;;
     shape_kernel (of_int 1 + g) (fun a => dcos (a * d_pi_half))
       (fun a => dsin (a * d_pi_half))
       (fun a => (of_int 1 + g) * dsin (a * d_pi_half)) theta theta (m_fdim p)).
Proof. reflexivity. Qed.

End ShapeLoops.

Section ClosedForms.

Context {D : Type} `{DoubleOps D}.

Local Open Scope double_scope.

Variable p : dtlz.
Variable x : vector_double D.
Hypothesis Hfdim : (2 <= m_fdim p)%N.
Hypothesis Hmax : (m_fdim p < size_modulus)%N.
Hypothesis Hx : (m_fdim p - 1 <= vsize x)%N.

Lemma f1_objfun_impl_eq :
  f1_objfun_impl p x
  = (g <- g_func p (skipn (N.to_nat (m_fdim p - 1)) x) ;;
     Ok (shape_front (c0_5 * (of_int 1 + g)) (fun a => a) (fun a => of_int 1 - a) x
           (N.to_nat (m_fdim p))
         ++ [c0_5 * (of_int 1 - hd (of_int 0) x) * (of_int 1 + g)])).
Proof.
  rewrite f1_as_kernel, collect_x_M_eq, bind_Ok. cbv beta.
  rewrite vsize_vzeros, size_sub_nowrap by lia.
  destruct (g_func p (skipn (N.to_nat (m_fdim p - 1)) x)) as [g | e |];
    try reflexivity.
  rewrite !bind_Ok. cbv beta.
  apply (@shape_kernel_eq _ _ (c0_5 * (of_int 1 + g)) (fun a => a)
           (fun a => of_int 1 - a)
           (fun a => c0_5 * (of_int 1 - a) * (of_int 1 + g))); try lia.
  apply vget_hd. lia.
Qed.

Lemma f23_objfun_impl_eq :
  f23_objfun_impl p x
  = (g <- g_func p (skipn (N.to_nat (m_fdim p - 1)) x) ;;
     Ok (shape_front (of_int 1 + g) (fun a => dcos (a * d_pi_half))
           (fun a => dsin (a * d_pi_half)) x (N.to_nat (m_fdim p))
         ++ [(of_int 1 + g) * dsin (hd (of_int 0) x * d_pi_half)])).
Proof.
  rewrite f23_as_kernel, collect_x_M_eq, bind_Ok. cbv beta.
  rewrite vsize_vzeros, size_sub_nowrap by lia.
  destruct (g_func p (skipn (N.to_nat (m_fdim p - 1)) x)) as [g | e |];
    try reflexivity.
  rewrite !bind_Ok. cbv beta.
  apply (@shape_kernel_eq _ _ (of_int 1 + g) (fun a => dcos (a * d_pi_half))
           (fun a => dsin (a * d_pi_half))
           (fun a => (of_int 1 + g) * dsin (a * d_pi_half))); try lia.
  apply vget_hd. lia.
Qed.

Lemma f4_objfun_impl_eq :
  f4_objfun_impl p x
  = (g <- g_func p (skipn (N.to_nat (m_fdim p - 1)) x) ;;
     Ok (shape_front (of_int 1 + g)
           (fun a => dcos (dpow a (of_N (m_alpha p)) * d_pi_half))
           (fun a => dsin (dpow a (of_N (m_alpha p)) * d_pi_half)) x
           (N.to_nat (m_fdim p))
         ++ [(of_int 1 + g)
             * dsin (dpow (hd (of_int 0) x) (of_N (m_alpha p)) * d_pi_half)])).
Proof.
  rewrite f4_as_kernel, collect_x_M_eq, bind_Ok. cbv beta.
  rewrite vsize_vzeros, size_sub_nowrap by lia.
  destruct (g_func p (skipn (N.to_nat (m_fdim p - 1)) x)) as [g | e |];
    try reflexivity.
  rewrite !bind_Ok. cbv beta.
  apply (@shape_kernel_eq _ _ (of_int 1 + g)
           (fun a => dcos (dpow a (of_N (m_alpha p)) * d_pi_half))
           (fun a => dsin (dpow a (of_N (m_alpha p)) * d_pi_half))
           (fun a => (of_int 1 + g) * dsin (dpow a (of_N (m_alpha p)) * d_pi_half)));
    try lia.
  apply vget_hd. lia.
Qed.

Lemma theta_of_size (g : D) :
  (m_fdim p <= vsize x)%N -> vsize (theta_of g x (N.to_nat (m_fdim p))) = m_fdim p.
Proof.
  intro Hx56. unfold theta_of, vsize in *. simpl List.length.
  destruct x as [| x0 xs]; simpl in *; [lia |].
  rewrite length_map, firstn_length_le by lia. lia.
Qed.

Lemma f56_objfun_impl_eq :
  (m_fdim p <= vsize x)%N ->
  f56_objfun_impl p x
  = (g <- g_func p (skipn (N.to_nat (m_fdim p - 1)) x) ;;
     Ok (shape_front (of_int 1 + g) (fun a => dcos (a * d_pi_half))
           (fun a => dsin (a * d_pi_half)) (theta_of g x (N.to_nat (m_fdim p)))
           (N.to_nat (m_fdim p))
         ++ [(of_int 1 + g) * dsin (hd (of_int 0) x * d_pi_half)])).
Proof.
  intro Hx56. pose proof theta_of_size as Htheta.
  rewrite f56_as_kernel, collect_x_M_eq, bind_Ok. cbv beta.
  rewrite !vsize_vzeros, size_sub_nowrap by lia.
  destruct (g_func p (skipn (N.to_nat (m_fdim p - 1)) x)) as [g | e |];
    try reflexivity.
  rewrite bind_Ok. cbv beta. specialize (Htheta g Hx56).
  set (n := N.to_nat (m_fdim p)) in *.
  destruct x as [| x0 xs]; [unfold vsize in Hx; simpl in Hx; lia |].
  change (vget (x0 :: xs) 0) with (Ok x0). rewrite bind_Ok. cbv beta.
  unfold vzeros. fold n. replace n with (S (n - 1)) at 1 by (unfold n; lia).
  simpl repeat.
  change (of_int 0 :: repeat (of_int 0) (n - 1))
    with ([] ++ of_int 0 :: repeat (of_int 0) (n - 1)).
  rewrite (@vset_app _ [] _ _ x0 0%N eq_refl), bind_Ok. cbv beta. simpl app.
  replace (m_fdim p) with (N.of_nat n) at 1 by (unfold n; lia).
  rewrite theta_loop by (unfold n, vsize in *; simpl in Hx56; lia).
  rewrite bind_Ok. cbv beta.
  apply (@shape_kernel_eq _ _ (of_int 1 + g) (fun a => dcos (a * d_pi_half))
           (fun a => dsin (a * d_pi_half))
           (fun a => (of_int 1 + g) * dsin (a * d_pi_half)));
    try lia; reflexivity.
Qed.

(** The copy loop of [f7_objfun_impl], for every vector with at least
    [fdim - 1] entries. *)
Lemma f7_copy_loop_general :
  for_range 0 (m_fdim p - 1)
    (fun i f => xi <- vget x i ;; vset f i xi) (vzeros (m_fdim p))
  = Ok (firstn (N.to_nat (m_fdim p - 1)) x ++ [of_int 0]).
Proof.
  apply returns_eq.
  eapply returns_weaken.
  - apply for_range_returns
      with (P := fun i f =>
                   f = firstn (N.to_nat i) x
                         ++ repeat (of_int 0) (N.to_nat (m_fdim p - i))).
    + lia.
    + simpl firstn. rewrite N.sub_0_r. reflexivity.
    + intros i f Hi ->.
      eapply returns_bind; [apply vget_returns; lia |].
      intros xi Hxi. cbv beta in Hxi.
      assert (Hlen : vsize (firstn (N.to_nat i) x) = i).
      { unfold vsize in *. rewrite firstn_length_le; lia. }
      replace (N.to_nat (m_fdim p - i)) with (S (N.to_nat (m_fdim p - N.succ i))) by lia.
      simpl repeat. rewrite (vset_app _ _ _ _ Hlen).
      apply returns_Ok.
      rewrite N2Nat.inj_succ, (firstn_succ_snoc x _ Hxi), <- app_assoc.
      reflexivity.
  - intros f ->. replace (m_fdim p - (m_fdim p - 1))%N with 1%N by lia. reflexivity.
Qed.

Lemma f7_objfun_impl_eq_general :
  f7_objfun_impl p x
  = (g0 <- g_func p (skipn (N.to_nat (m_fdim p - 1)) x) ;;
     Ok (firstn (N.to_nat (m_fdim p - 1)) x
         ++ [(of_int 1 + (of_int 1 + g0))
             * h_spec (m_fdim p) (firstn (N.to_nat (m_fdim p - 1)) x)
                      (of_int 1 + g0)])).
Proof.
  unfold f7_objfun_impl. cbv zeta.
  rewrite collect_x_M_eq, bind_Ok. cbv beta. rewrite vsize_vzeros.
  rewrite size_sub_nowrap by lia.
  destruct (g_func p (skipn (N.to_nat (m_fdim p - 1)) x)) as [g0 | e |];
    try reflexivity.
  rewrite bind_Ok. cbv beta.
  rewrite f7_copy_loop_general, bind_Ok. cbv beta.
  set (fs := firstn (N.to_nat (m_fdim p - 1)) x).
  assert (Hfs : vsize fs = (m_fdim p - 1)%N).
  { unfold vsize, fs in *. rewrite firstn_length_le; lia. }
  rewrite h7_func_eq by lia. rewrite bind_Ok. cbv beta.
  rewrite vsize_app, Hfs. change (vsize [of_int 0]) with 1%N.
  rewrite size_sub_nowrap by lia.
  apply vset_app. lia.
Qed.

End ClosedForms.

Section FitnessClosedForms.

Context {D : Type} `{DoubleOps D}.

Local Open Scope double_scope.

(** X1: for problem id 1, at least 2 objectives and a decision vector with
    at least [fdim - 1] entries, [fitness] returns, with
    [s = 0.5 * (1 + g(x_M))], the objectives
    [f[0] = s * x[0] * ... * x[fdim-2]],
    [f[k] = s * x[0] * ... * x[fdim-2-k] * (1 - x[fdim-1-k])] for
    [0 < k < fdim - 1], and [f[fdim-1] = 0.5 * (1 - x[0]) * (1 + g)], the
    products taken from left to right. *)
Theorem fitness_dtlz1_closed_form (p : dtlz) (x : vector_double D) :
  m_prob_id p = 1%N ->
  (2 <= m_fdim p < size_modulus)%N ->
  (m_fdim p - 1 <= vsize x)%N ->
  exists g : D,
    g_func p (skipn (N.to_nat (m_fdim p - 1)) x) = Ok g
    /\ fitness p x
       = Ok (shape_front (c0_5 * (of_int 1 + g)) (fun a => a) (fun a => of_int 1 - a) x
               (N.to_nat (m_fdim p))
             ++ [c0_5 * (of_int 1 - hd (of_int 0) x) * (of_int 1 + g)]).
Proof.
  intros Hid [Hfdim Hmax] Hx.
  destruct (g_func_returns p (skipn (N.to_nat (m_fdim p - 1)) x)) as [g [Hg _]].
  exists g. split; [exact Hg |].
  unfold fitness. rewrite Hid. cbv iota.
  rewrite f1_objfun_impl_eq by assumption. rewrite Hg. reflexivity.
Qed.

(** X2: for problem ids 2 and 3, with [s = 1 + g(x_M)] and
    [a_i = x[i] * pi/2], [fitness] returns
    [f[0] = s * cos a_0 * ... * cos a_(fdim-2)],
    [f[k] = s * cos a_0 * ... * cos a_(fdim-2-k) * sin a_(fdim-1-k)] for
    [0 < k < fdim - 1], and [f[fdim-1] = s * sin a_0]. *)
Theorem fitness_dtlz23_closed_form (p : dtlz) (x : vector_double D) :
  m_prob_id p = 2%N \/ m_prob_id p = 3%N ->
  (2 <= m_fdim p < size_modulus)%N ->
  (m_fdim p - 1 <= vsize x)%N ->
  exists g : D,
    g_func p (skipn (N.to_nat (m_fdim p - 1)) x) = Ok g
    /\ fitness p x
       = Ok (shape_front (of_int 1 + g) (fun a => dcos (a * d_pi_half))
               (fun a => dsin (a * d_pi_half)) x (N.to_nat (m_fdim p))
             ++ [(of_int 1 + g) * dsin (hd (of_int 0) x * d_pi_half)]).
Proof.
  intros Hid [Hfdim Hmax] Hx.
  destruct (g_func_returns p (skipn (N.to_nat (m_fdim p - 1)) x)) as [g [Hg _]].
  exists g. split; [exact Hg |].
  unfold fitness. destruct Hid as [Hid | Hid]; rewrite Hid; cbv iota;
    rewrite f23_objfun_impl_eq by assumption; rewrite Hg; reflexivity.
Qed.

(** X3: for problem id 4 the objectives are those of problems 2 and 3 with
    every position component raised to the power [alpha] first:
    [a_i = pow(x[i], alpha) * pi/2]. *)
Theorem fitness_dtlz4_closed_form (p : dtlz) (x : vector_double D) :
  m_prob_id p = 4%N ->
  (2 <= m_fdim p < size_modulus)%N ->
  (m_fdim p - 1 <= vsize x)%N ->
  exists g : D,
    g_func p (skipn (N.to_nat (m_fdim p - 1)) x) = Ok g
    /\ fitness p x
       = Ok (shape_front (of_int 1 + g)
               (fun a => dcos (dpow a (of_N (m_alpha p)) * d_pi_half))
               (fun a => dsin (dpow a (of_N (m_alpha p)) * d_pi_half)) x
               (N.to_nat (m_fdim p))
             ++ [(of_int 1 + g)
                 * dsin (dpow (hd (of_int 0) x) (of_N (m_alpha p)) * d_pi_half)]).
Proof.
  intros Hid [Hfdim Hmax] Hx.
  destruct (g_func_returns p (skipn (N.to_nat (m_fdim p - 1)) x)) as [g [Hg _]].
  exists g. split; [exact Hg |].
  unfold fitness. rewrite Hid. cbv iota.
  rewrite f4_objfun_impl_eq by assumption. rewrite Hg. reflexivity.
Qed.

(** X4: for problem ids 5 and 6 and a decision vector with at least [fdim]
    entries, the objectives are those of problems 2 and 3 computed on the
    meta-variables [theta] in place of [x], where [theta[0] = x[0]] and
    [theta[i] = 1 / (2 * (1 + g)) + (g * x[i]) / (1 + g)] for
    [0 < i < fdim]. *)
Theorem fitness_dtlz56_closed_form (p : dtlz) (x : vector_double D) :
  m_prob_id p = 5%N \/ m_prob_id p = 6%N ->
  (2 <= m_fdim p < size_modulus)%N ->
  (m_fdim p <= vsize x)%N ->
  exists g : D,
    g_func p (skipn (N.to_nat (m_fdim p - 1)) x) = Ok g
    /\ fitness p x
       = Ok (shape_front (of_int 1 + g) (fun a => dcos (a * d_pi_half))
               (fun a => dsin (a * d_pi_half))
               (theta_of g x (N.to_nat (m_fdim p))) (N.to_nat (m_fdim p))
             ++ [(of_int 1 + g) * dsin (hd (of_int 0) x * d_pi_half)]).
Proof.
  intros Hid [Hfdim Hmax] Hx.
  destruct (g_func_returns p (skipn (N.to_nat (m_fdim p - 1)) x)) as [g [Hg _]].
  exists g. split; [exact Hg |].
  unfold fitness. destruct Hid as [Hid | Hid]; rewrite Hid; cbv iota;
    rewrite f56_objfun_impl_eq by (assumption || lia); rewrite Hg; reflexivity.
Qed.

End FitnessClosedForms.

(** The closed forms on a run traced over [sym]: DTLZ1 with three
    objectives. *)
Example shape_front_dtlz1_trace :
  let s := SMul SHalf (SAdd (SInt 1) (SVar "g")) in
  shape_front s (fun a => a) (fun a => SSub (SInt 1) a)
    [SVar "a"; SVar "b"; SVar "c"; SVar "d"] 3
  = [SMul (SMul s (SVar "a")) (SVar "b");
     SMul (SMul s (SVar "a")) (SSub (SInt 1) (SVar "b"))].
Proof. reflexivity. Qed.

(* ===================================================================== *)
(** ** The objective vectors on real numbers: hyperplane and sphere *)
(* ===================================================================== *)

Lemma Rsum_app (u w : list R) : (Rsum (u ++ w) = Rsum u + Rsum w)%R.
Proof. induction u as [| a u IH]; simpl; [lra | rewrite IH; lra]. Qed.

Lemma hd_nth_0 {A : Type} (d : A) (l : list A) : hd d l = nth 0 l d.
Proof. destruct l; reflexivity. Qed.

Section Telescope.

Local Open Scope R_scope.

Variables (init : R) (c l : R -> R) (v : list R) (n : nat).
Hypothesis Hn : (2 <= n)%nat.
Hypothesis Hv : (n - 1 <= List.length v)%nat.
Hypothesis Hcl : forall a, In a v -> c a + l a = 1.

Lemma shape_product_step (r : nat) :
  (r < n - 1)%nat ->
  shape_product c v r init * l (nth r v 0)
  = shape_product c v r init - shape_product c v (S r) init.
Proof.
  intro Hr.
  destruct (nth_error v r) as [b |] eqn:Hb.
  2:{ apply nth_error_None in Hb. lia. }
  rewrite (@shape_product_succ R _ c v r init b Hb).
  rewrite (nth_error_nth _ _ _ Hb).
  assert (Hin : In b v) by (eapply nth_error_In; exact Hb).
  specialize (Hcl _ Hin). simpl. nra.
Qed.

Lemma shape_front_tail_sum (j : nat) :
  (j <= n - 2)%nat ->
  Rsum (map (shape_objective init c l v n) (seq 1 j))
  = shape_product c v (n - 1 - j) init - shape_product c v (n - 1) init.
Proof.
  induction j as [| j IH]; intro Hj.
  - simpl. rewrite Nat.sub_0_r. lra.
  - rewrite seq_S, map_app, Rsum_app, IH by lia. simpl map. simpl Rsum.
    change (shape_objective init c l v n (S j))
      with (shape_product c v (n - 1 - S j) init * l (nth (n - 1 - S j) v 0)).
    rewrite shape_product_step by lia.
    replace (S (n - 1 - S j)) with (n - 1 - j)%nat by lia. lra.
Qed.

(** The objectives [0 .. n-2] and the last one, [init * l v[0]], add up to
    [init] when [c + l = 1] on the entries of [v]. *)
Lemma shape_front_sum :
  Rsum (shape_front init c l v n) + init * l (nth 0 v 0) = init.
Proof.
  unfold shape_front.
  replace (n - 1)%nat with (S (n - 2)) at 1 by lia.
  simpl seq. simpl map. simpl Rsum. rewrite shape_front_tail_sum by lia.
  unfold shape_objective.
  replace (n - 1 - (n - 2))%nat with 1%nat by lia.
  pose proof (@shape_product_step 0%nat) as H0.
  change (shape_product c v 0 init) with init in H0.
  rewrite H0 by lia. lra.
Qed.

End Telescope.

Section Geometry.

Local Open Scope R_scope.





(** X5: on real numbers the objectives of problem 1 add up to
    [0.5 * (1 + g(x_M))]: the objective vector lies on the hyperplane
    [sum f = 0.5 * (1 + g)], which is [sum f = 0.5] where [g] vanishes. *)
Theorem fitness_dtlz1_hyperplane (p : dtlz) (x : vector_double R) :
  m_prob_id p = 1%N ->
  (2 <= m_fdim p < size_modulus)%N ->
  (m_fdim p - 1 <= vsize x)%N ->
  exists (g : R) (f : vector_double R),
    g_func p (skipn (N.to_nat (m_fdim p - 1)) x) = Ok g
    /\ fitness p x = Ok f
    /\ Rsum f = 0.5 * (1 + g)
    /\ (g = 0 -> Rsum f = 0.5).
Proof.
  intros Hid [Hfdim Hmax] Hx.
  destruct (g_func_returns p (skipn (N.to_nat (m_fdim p - 1)) x)) as [g [Hg _]].
  exists g. eexists. split; [exact Hg |]. split.
  - unfold fitness. rewrite Hid. cbv iota.
    rewrite f1_objfun_impl_eq by assumption. rewrite Hg. reflexivity.
  - assert (Hsum : Rsum (shape_front (c0_5 * (of_int 1 + g))%dbl (fun a => a)
                           (fun a => (of_int 1 - a)%dbl) x (N.to_nat (m_fdim p))
                         ++ [(c0_5 * (of_int 1 - hd (of_int 0) x) * (of_int 1 + g))%dbl])
                  = 0.5 * (1 + g)).
    { rewrite Rsum_app, hd_nth_0.
      pose proof (@shape_front_sum (0.5 * (1 + g)) (fun a => a) (fun a => 1 - a) x
                    (N.to_nat (m_fdim p))) as Hfront.
      simpl in *. unfold vsize in Hx.
      rewrite <- Hfront at 2; [lra | lia | lia | intros a _; lra]. }
    split; [exact Hsum |]. intro Hg0. rewrite Hsum, Hg0. lra.
Qed.


End Geometry.

(* ===================================================================== *)
(** ** The convergence metric on real numbers: zero exactly at the optimum *)
(* ===================================================================== *)



Section Optimum.

Local Open Scope R_scope.













End Optimum.

(* ===================================================================== *)
(** ** The population-level metric on members of the wrong length *)
(* ===================================================================== *)

(** A loop that reads [l[0]], [l[1]], ... and runs [f] on each entry stops
    at the first entry on which [f] throws. *)
Lemma for_loop_fold_throw {A B St : Type} (f : A -> outcome B) (step : St -> B -> St)
      (body : N -> St -> outcome St) (good : list A) (bs : list B) (bad : A)
      (rest : list A) (e : exn) :
  Forall2 (fun a b => f a = Ok b) good bs ->
  f bad = Throw e ->
  forall (pre : list A) (s : St),
    (forall i a s', nth_error (pre ++ good ++ bad :: rest) (N.to_nat i) = Some a ->
                    body i s' = (b <- f a ;; Ok (step s' b))) ->
    for_loop (List.length (good ++ bad :: rest)) (vsize pre) body s = Throw e.
Proof.
  intros Hgood Hbad. induction Hgood as [| a b good bs Hab Hrest IH];
    intros pre s Hbody; simpl.
  - rewrite (Hbody (vsize pre) bad s).
    + rewrite Hbad. reflexivity.
    + unfold vsize. rewrite Nat2N.id, nth_error_app2, Nat.sub_diag by lia.
      reflexivity.
  - rewrite (Hbody (vsize pre) a s).
    2:{ unfold vsize. rewrite Nat2N.id, nth_error_app2, Nat.sub_diag by lia.
        reflexivity. }
    rewrite Hab. simpl bind.
    replace (N.succ (vsize pre)) with (vsize (pre ++ [a]))
      by (rewrite vsize_app; change (vsize [a]) with 1%N; lia).
    apply IH. intros i a' s' Hi. apply Hbody.
    rewrite <- app_assoc in Hi. exact Hi.
Qed.

(** The first member of the wrong length, if there is one. *)
Lemma first_wrong_length {A : Type} (d : N) (l : list (list A)) :
  Exists (fun x => vsize x <> d) l ->
  exists good bad rest,
    l = good ++ bad :: rest
    /\ Forall (fun x => vsize x = d) good
    /\ vsize bad <> d.
Proof.
  induction l as [| a l IH]; intro Hex; [inversion Hex |].
  destruct (N.eq_dec (vsize a) d) as [Ha | Ha].
  - apply Exists_cons in Hex. destruct Hex as [Hbad | Hlater]; [contradiction |].
    destruct (IH Hlater) as [good [bad [rest [-> [Hgood Hbad]]]]].
    exists (a :: good), bad, rest.
    split; [reflexivity | split; [constructor; assumption | exact Hbad]].
  - exists [], a, l. split; [reflexivity | split; [constructor | exact Ha]].
Qed.

Section PopulationErrors.

Context {D : Type} `{DoubleOps D}.

Local Open Scope double_scope.

Lemma p_distance_pop_wrong_length (p : dtlz) (good rest : list (vector_double D))
      (bad : vector_double D) :
  Forall (fun x => vsize x = m_dim p) good ->
  vsize bad <> m_dim p ->
  p_distance_pop p (good ++ bad :: rest)
  = Throw (invalid_argument
             ("The size of the decision vector should be " ++ to_string (m_dim p)
                ++ " while " ++ to_string (vsize bad) ++ " was detected")%string).
Proof.
  intros Hgood Hbad.
  destruct (@p_distance_members D _ p good Hgood) as [cs Hcs].
  assert (Hthrow : p_distance p bad
                   = Throw (invalid_argument
                              ("The size of the decision vector should be "
                                 ++ to_string (m_dim p) ++ " while "
                                 ++ to_string (vsize bad) ++ " was detected")%string)).
  { unfold p_distance, pagmo_throw. apply N.eqb_neq in Hbad. rewrite Hbad.
    reflexivity. }
  unfold p_distance_pop, pop_size, get_x, for_range.
  rewrite N.sub_0_r. unfold vsize at 1. rewrite Nat2N.id.
  change 0%N with (vsize (@nil (vector_double D))).
  rewrite (@for_loop_fold_throw _ _ _ (p_distance p) dadd _ good cs bad rest _
             Hcs Hthrow).
  - reflexivity.
  - intros i a s' Hi. simpl app in Hi. rewrite (vget_Some _ i Hi). reflexivity.
Qed.

(** X8: the population-level metric throws [std::invalid_argument] if and
    only if some member of the population has a length other than
    [dimension]; the exception is that of the first such member, its
    message naming [dimension] and the length of that member, and the
    members after it are not looked at. *)
Theorem p_distance_pop_throws_iff (p : dtlz) (pop : population D) :
  (throws_invalid_argument (p_distance_pop p pop)
   <-> Exists (fun x => vsize x <> m_dim p) pop)
  /\ (forall (good rest : list (vector_double D)) (bad : vector_double D),
        pop = good ++ bad :: rest ->
        Forall (fun x => vsize x = m_dim p) good ->
        vsize bad <> m_dim p ->
        p_distance_pop p pop
        = Throw (invalid_argument
                   ("The size of the decision vector should be "
                      ++ to_string (m_dim p) ++ " while "
                      ++ to_string (vsize bad) ++ " was detected")%string)).
Proof.
  split; [split |].
  - intros [what Hthrow].
    destruct (Forall_Exists_dec (fun x : vector_double D => vsize x = m_dim p)
                (fun x => N.eq_dec (vsize x) (m_dim p)) pop) as [Hall | Hex];
      [| exact Hex].
    destruct (@p_distance_members D _ p pop Hall) as [cs Hcs].
    rewrite (@p_distance_pop_eq D _ p pop cs Hcs) in Hthrow. discriminate Hthrow.
  - intro Hex.
    destruct (first_wrong_length Hex) as [good [bad [rest [-> [Hgood Hbad]]]]].
    eexists. apply p_distance_pop_wrong_length; assumption.
  - intros good rest bad -> Hgood Hbad.
    apply p_distance_pop_wrong_length; assumption.
Qed.

End PopulationErrors.

(* ===================================================================== *)
(** ** Decision vectors of the wrong length *)
(* ===================================================================== *)

Lemma for_loop_app {St : Type} (body : N -> St -> outcome St) :
  forall (n1 n2 : nat) (lo : N) (s : St),
    for_loop (n1 + n2) lo body s
    = (s' <- for_loop n1 lo body s ;; for_loop n2 (lo + N.of_nat n1) body s').
Proof.
  induction n1 as [| n1 IH]; intros n2 lo s.
  - simpl. replace (lo + 0)%N with lo by lia. reflexivity.
  - simpl for_loop. destruct (body lo s) as [s1 | e |]; simpl bind; try reflexivity.
    rewrite IH. replace (N.succ lo + N.of_nat n1)%N with (lo + N.of_nat (S n1))%N by lia.
    reflexivity.
Qed.

(** A loop whose iteration [i0] reads past the end of a vector: the
    iterations before it run, that one is undefined behaviour. *)
Lemma for_range_undefined {St : Type} (P : St -> Prop) (body : N -> St -> outcome St)
      (lo hi i0 : N) (s : St) :
  (lo <= i0 < hi)%N -> P s ->
  (forall i s', (lo <= i < i0)%N -> P s' -> returns (body i s') P) ->
  (forall s', P s' -> body i0 s' = Undefined) ->
  for_range lo hi body s = Undefined.
Proof.
  intros Hi0 Hs Hbefore Hat. unfold for_range.
  replace (N.to_nat (hi - lo)) with (N.to_nat (i0 - lo) + S (N.to_nat (hi - i0 - 1)))%nat
    by lia.
  rewrite for_loop_app.
  destruct (@for_range_preserves St P body lo i0 s Hs Hbefore) as [s' [Hrun Hs']].
  unfold for_range in Hrun. rewrite Hrun. simpl bind.
  replace (lo + N.of_nat (N.to_nat (i0 - lo)))%N with i0 by lia.
  rewrite (Hat s' Hs'). reflexivity.
Qed.

Lemma vget_undefined {A : Type} (v : list A) (i : N) :
  (vsize v <= i)%N -> vget v i = Undefined.
Proof.
  intro Hi. unfold vget.
  destruct (nth_error v (N.to_nat i)) as [a |] eqn:Hn; [| reflexivity].
  assert (Hlt : (N.to_nat i < List.length v)%nat)
    by (apply nth_error_Some; rewrite Hn; discriminate).
  unfold vsize in Hi. lia.
Qed.

Section WrongLength.

Context {D : Type} `{DoubleOps D}.

Local Open Scope double_scope.

Lemma shape_then_undefined {A : Type} (init : D) (c l : D -> D)
      (v f : vector_double D) (K : vector_double D -> outcome A) :
  (2 <= vsize f)%N -> (vsize f < size_modulus)%N -> (vsize v < vsize f - 1)%N ->
  shape_then init c l v f K = Undefined.
Proof.
  intros Hf Hmax Hv. unfold shape_then.
  destruct (@vset_keeps D f 0%N (vsize f) init eq_refl) as [f1 [Hset Hf1]]; [lia |].
  rewrite Hset, bind_Ok. cbv beta.
  rewrite Hf1, size_sub_nowrap by lia.
  rewrite (@for_range_undefined _ (fun f' => vsize f' = vsize f) _ 0%N _ (vsize v)).
  - reflexivity.
  - lia.
  - exact Hf1.
  - intros i f' Hi Hf'.
    eapply returns_bind; [apply (@vget_in_bounds D v i (vsize v) eq_refl); lia |].
    intros a _. apply vmul_assign_keeps; [exact Hf' | lia].
  - intros f' _. rewrite vget_undefined by lia. reflexivity.
Qed.

Variable p : dtlz.
Variable x : vector_double D.
Hypothesis Hfdim : (2 <= m_fdim p)%N.
Hypothesis Hmax : (m_fdim p < size_modulus)%N.

Lemma f1_objfun_impl_undefined :
  (vsize x < m_fdim p - 1)%N -> f1_objfun_impl p x = Undefined.
Proof.
  intro Hx. rewrite f1_as_kernel, collect_x_M_eq, bind_Ok. cbv beta.
  destruct (g_func_returns p (skipn (N.to_nat (size_sub (vsize (vzeros (m_fdim p))) 1)) x))
    as [g [Hg _]].
  rewrite Hg, bind_Ok. cbv beta. unfold shape_kernel.
  apply shape_then_undefined; rewrite vsize_vzeros; lia.
Qed.

Lemma f23_objfun_impl_undefined :
  (vsize x < m_fdim p - 1)%N -> f23_objfun_impl p x = Undefined.
Proof.
  intro Hx. rewrite f23_as_kernel, collect_x_M_eq, bind_Ok. cbv beta.
  destruct (g_func_returns p (skipn (N.to_nat (size_sub (vsize (vzeros (m_fdim p))) 1)) x))
    as [g [Hg _]].
  rewrite Hg, bind_Ok. cbv beta. unfold shape_kernel.
  apply shape_then_undefined; rewrite vsize_vzeros; lia.
Qed.

Lemma f4_objfun_impl_undefined :
  (vsize x < m_fdim p - 1)%N -> f4_objfun_impl p x = Undefined.
Proof.
  intro Hx. rewrite f4_as_kernel, collect_x_M_eq, bind_Ok. cbv beta.
  destruct (g_func_returns p (skipn (N.to_nat (size_sub (vsize (vzeros (m_fdim p))) 1)) x))
    as [g [Hg _]].
  rewrite Hg, bind_Ok. cbv beta. unfold shape_kernel.
  apply shape_then_undefined; rewrite vsize_vzeros; lia.
Qed.

Lemma f56_objfun_impl_undefined :
  (vsize x < m_fdim p)%N -> f56_objfun_impl p x = Undefined.
Proof.
  intro Hx. rewrite f56_as_kernel, collect_x_M_eq, bind_Ok. cbv beta.
  destruct (g_func_returns p (skipn (N.to_nat (size_sub (vsize (vzeros (m_fdim p))) 1)) x))
    as [g [Hg _]].
  rewrite Hg, bind_Ok. cbv beta.
  destruct (N.eq_dec (vsize x) 0) as [Hempty | Hnonempty].
  - rewrite vget_undefined by lia. reflexivity.
  - destruct (@vget_in_bounds D x 0%N (vsize x) eq_refl) as [x0 [Hx0 _]]; [lia |].
    rewrite Hx0, bind_Ok. cbv beta. rewrite !vsize_vzeros.
    destruct (@vset_keeps D (vzeros (m_fdim p)) 0%N (m_fdim p) x0 (vsize_vzeros _))
      as [th [Hset Hth]]; [lia |].
    rewrite Hset, bind_Ok. cbv beta.
    rewrite (@for_range_undefined _ (fun th' => vsize th' = m_fdim p) _ 1%N _ (vsize x)).
    + reflexivity.
    + lia.
    + exact Hth.
    + intros i th' Hi Hth'.
      eapply returns_bind; [apply (@vget_in_bounds D x i (vsize x) eq_refl); lia |].
      intros a _. apply vset_keeps; [exact Hth' | lia].
    + intros th' _. rewrite vget_undefined by lia. reflexivity.
Qed.

Lemma f7_objfun_impl_undefined :
  (vsize x < m_fdim p - 1)%N -> f7_objfun_impl p x = Undefined.
Proof.
  intro Hx. unfold f7_objfun_impl. cbv zeta.
  rewrite collect_x_M_eq, bind_Ok. cbv beta.
  destruct (g_func_returns p (skipn (N.to_nat (size_sub (vsize (vzeros (m_fdim p))) 1)) x))
    as [g [Hg _]].
  rewrite Hg, bind_Ok. cbv beta.
  rewrite vsize_vzeros, size_sub_nowrap by lia.
  rewrite (@for_range_undefined _ (fun f' => vsize f' = m_fdim p) _ 0%N _ (vsize x)).
  - reflexivity.
  - lia.
  - apply vsize_vzeros.
  - intros i f' Hi Hf'.
    eapply returns_bind; [apply (@vget_in_bounds D x i (vsize x) eq_refl); lia |].
    intros a _. apply vset_keeps; [exact Hf' | lia].
  - intros f' _. rewrite vget_undefined by lia. reflexivity.
Qed.

End WrongLength.

Section DefinedBehaviour.

Context {D : Type} `{DoubleOps D}.

Local Open Scope double_scope.

Lemma shape_result_size (front : list D) (z : D) (n : N) :
  (1 <= n)%N -> List.length front = (N.to_nat n - 1)%nat -> vsize (front ++ [z]) = n.
Proof.
  intros Hn Hfront. rewrite vsize_app. unfold vsize. rewrite Hfront. simpl. lia.
Qed.

Lemma shape_front_length (init : D) (c l : D -> D) (v : list D) (n : nat) :
  List.length (shape_front init c l v n) = (n - 1)%nat.
Proof. unfold shape_front. rewrite length_map, length_seq. reflexivity. Qed.

(** X9: for a problem id in [1, 7] and at least 2 objectives, [fitness]
    returns [fdim] objectives when the decision vector has at least
    [fdim - 1] entries ([fdim] entries for problems 5 and 6), whatever
    [dimension] is, and reads past the end of the vector (undefined
    behaviour) when it is shorter. *)
Theorem fitness_defined_iff_long_enough (p : dtlz) (x : vector_double D) :
  (1 <= m_prob_id p <= 7)%N ->
  (2 <= m_fdim p < size_modulus)%N ->
  ((min_length p <= vsize x)%N ->
   returns (fitness p x) (fun f => vsize f = m_fdim p))
  /\ ((vsize x < min_length p)%N -> fitness p x = Undefined).
Proof.
  intros Hid [Hfdim Hmax].
  assert (Hret : forall (m : outcome D) (front : D -> list D) (z : D -> D),
             returns m (fun _ => True) ->
             (forall g, List.length (front g) = (N.to_nat (m_fdim p) - 1)%nat) ->
             returns (g <- m ;; Ok (front g ++ [z g])) (fun f => vsize f = m_fdim p)).
  { intros m front z Hm Hfront. eapply returns_bind; [exact Hm |].
    intros g _. apply returns_Ok. apply shape_result_size; [lia | apply Hfront]. }
  unfold fitness, min_length.
  destruct (prob_id_cases Hid) as [E | [E | [E | [E | [E | [E | E]]]]]];
    rewrite E; cbv iota; split; intro Hx.
  - rewrite f1_objfun_impl_eq by assumption.
    apply Hret; [apply g_func_returns | intro g; apply shape_front_length].
  - apply f1_objfun_impl_undefined; assumption.
  - rewrite f23_objfun_impl_eq by assumption.
    apply Hret; [apply g_func_returns | intro g; apply shape_front_length].
  - apply f23_objfun_impl_undefined; assumption.
  - rewrite f23_objfun_impl_eq by assumption.
    apply Hret; [apply g_func_returns | intro g; apply shape_front_length].
  - apply f23_objfun_impl_undefined; assumption.
  - rewrite f4_objfun_impl_eq by assumption.
    apply Hret; [apply g_func_returns | intro g; apply shape_front_length].
  - apply f4_objfun_impl_undefined; assumption.
  - rewrite f56_objfun_impl_eq by (assumption || lia).
    apply Hret; [apply g_func_returns | intro g; apply shape_front_length].
  - apply f56_objfun_impl_undefined; assumption.
  - rewrite f56_objfun_impl_eq by (assumption || lia).
    apply Hret; [apply g_func_returns | intro g; apply shape_front_length].
  - apply f56_objfun_impl_undefined; assumption.
  - rewrite f7_objfun_impl_eq_general by assumption.
    apply (Hret _ (fun _ => firstn (N.to_nat (m_fdim p - 1)) x)
                (fun g0 => (of_int 1 + (of_int 1 + g0))
                           * h_spec (m_fdim p) (firstn (N.to_nat (m_fdim p - 1)) x)
                                    (of_int 1 + g0)));
      [apply g_func_returns |].
    intros _. rewrite firstn_length_le; unfold vsize in Hx; lia.
  - apply f7_objfun_impl_undefined; assumption.
Qed.

(** Computations that throw nothing. *)
Lemma never_throws_Ok {A : Type} (a : A) : never_throws (Ok a).
Proof. intros e He. discriminate He. Qed.

Lemma never_throws_bind {A B : Type} (m : outcome A) (k : A -> outcome B) :
  never_throws m -> (forall a, never_throws (k a)) -> never_throws (x <- m ;; k x).
Proof.
  intros Hm Hk e. destruct m as [a | e' |]; simpl.
  - apply Hk.
  - exfalso. apply (Hm e'). reflexivity.
  - discriminate.
Qed.

Lemma never_throws_vget {A : Type} (v : list A) (i : N) : never_throws (vget v i).
Proof. intros e. unfold vget. destruct (nth_error v (N.to_nat i)); discriminate. Qed.

Lemma never_throws_vset {A : Type} (v : list A) (i : N) (a : A) :
  never_throws (vset v i a).
Proof. intros e. unfold vset. destruct (i <? vsize v)%N; discriminate. Qed.

Lemma never_throws_vmul_assign (f : vector_double D) (i : N) (e : D) :
  never_throws (vmul_assign f i e).
Proof.
  unfold vmul_assign. apply never_throws_bind; [apply never_throws_vget |].
  intro a. apply never_throws_vset.
Qed.

Lemma never_throws_for_loop {St : Type} (body : N -> St -> outcome St) :
  (forall i s, never_throws (body i s)) ->
  forall (n : nat) (lo : N) (s : St), never_throws (for_loop n lo body s).
Proof.
  intros Hbody. induction n as [| n IH]; intros lo s; simpl.
  - apply never_throws_Ok.
  - apply never_throws_bind; [apply Hbody | intro s'; apply IH].
Qed.

Lemma never_throws_for_range {St : Type} (body : N -> St -> outcome St)
      (lo hi : N) (s : St) :
  (forall i s', never_throws (body i s')) -> never_throws (for_range lo hi body s).
Proof. intro Hbody. unfold for_range. apply never_throws_for_loop. exact Hbody. Qed.

Lemma never_throws_returns {A : Type} (m : outcome A) (Q : A -> Prop) :
  returns m Q -> never_throws m.
Proof. intros [a [Hm _]] e. rewrite Hm. discriminate. Qed.

Ltac never_throws_step :=
  first [ apply never_throws_Ok
        | apply never_throws_vget
        | apply never_throws_vset
        | apply never_throws_vmul_assign
        | apply (never_throws_returns (g_func_returns _ _))
        | apply never_throws_for_range; intros
        | apply never_throws_bind; [| intros] ].

Lemma never_throws_shape_kernel (init : D) (c l fin : D -> D) (v w : vector_double D)
      (n : N) :
  never_throws (shape_kernel init c l fin v w n).
Proof. unfold shape_kernel, shape_then. repeat never_throws_step. Qed.

Lemma never_throws_h7_func (p : dtlz) (f : vector_double D) (g : D) :
  never_throws (h7_func p f g).
Proof. unfold h7_func. repeat never_throws_step. Qed.

(** X10: [fitness] validates nothing: for every evaluator, constructed or
    not, and every vector it throws no exception; a vector of the wrong
    length is not reported, and neither is a problem id outside [1, 7]. *)
Theorem fitness_never_throws (p : dtlz) (x : vector_double D) :
  never_throws (fitness p x).
Proof.
  assert (H1 : never_throws (f1_objfun_impl p x)).
  { rewrite f1_as_kernel, collect_x_M_eq, bind_Ok. cbv beta.
    apply never_throws_bind; [apply (never_throws_returns (g_func_returns _ _)) |].
    intro g. apply never_throws_shape_kernel. }
  assert (H23 : never_throws (f23_objfun_impl p x)).
  { rewrite f23_as_kernel, collect_x_M_eq, bind_Ok. cbv beta.
    apply never_throws_bind; [apply (never_throws_returns (g_func_returns _ _)) |].
    intro g. apply never_throws_shape_kernel. }
  assert (H4 : never_throws (f4_objfun_impl p x)).
  { rewrite f4_as_kernel, collect_x_M_eq, bind_Ok. cbv beta.
    apply never_throws_bind; [apply (never_throws_returns (g_func_returns _ _)) |].
    intro g. apply never_throws_shape_kernel. }
  assert (H56 : never_throws (f56_objfun_impl p x)).
  { rewrite f56_as_kernel, collect_x_M_eq, bind_Ok. cbv beta.
    apply never_throws_bind; [apply (never_throws_returns (g_func_returns _ _)) |].
    intro g. apply never_throws_bind; [apply never_throws_vget |]. intro x0.
    apply never_throws_bind; [apply never_throws_vset |]. intro th.
    apply never_throws_bind.
    - apply never_throws_for_range. intros i th'.
      apply never_throws_bind; [apply never_throws_vget |].
      intro xi. apply never_throws_vset.
    - intro th'. apply never_throws_shape_kernel. }
  assert (H7 : never_throws (f7_objfun_impl p x)).
  { unfold f7_objfun_impl. cbv zeta. rewrite collect_x_M_eq, bind_Ok. cbv beta.
    apply never_throws_bind; [apply (never_throws_returns (g_func_returns _ _)) |].
    intro g. apply never_throws_bind.
    - apply never_throws_for_range. intros i f.
      apply never_throws_bind; [apply never_throws_vget |].
      intro xi. apply never_throws_vset.
    - intro f. apply never_throws_bind; [apply never_throws_h7_func |].
      intro h. apply never_throws_vset. }
  unfold fitness.
  destruct (m_prob_id p) as [| [[[q | q |] | [q | q |] |] | [[q | q |] | [q | q |] |] |]];
    first [assumption | apply never_throws_Ok].
Qed.

(** X11: an evaluator whose problem id is outside [1, 7] (the constructor
    builds none, but the fields can be loaded by [serialize]) is not
    rejected at evaluation: [fitness] returns the empty vector, [g_func]
    takes the [return -1] after its [switch], and the convergence metric of
    a vector of the right length is [0.0 + -1]. *)
Theorem invalid_prob_id_behaviour (p : dtlz) (x : vector_double D) :
  (m_prob_id p = 0 \/ 7 < m_prob_id p)%N ->
  fitness p x = Ok []
  /\ g_switch (m_prob_id p) = g_fallthrough
  /\ g_func p x = Ok (of_int (-1))
  /\ (vsize x = m_dim p -> p_distance p x = Ok (of_int 0 + of_int (-1))).
Proof.
  intro Hid.
  assert (Hswitch : g_switch (m_prob_id p) = g_fallthrough).
  { destruct (m_prob_id p)
      as [| [[[q | q |] | [q | q |] |] | [[q | q |] | [q | q |] |] |]];
      try reflexivity; exfalso; lia. }
  assert (Hg : forall y : vector_double D, g_func p y = Ok (of_int (-1))).
  { intro y. unfold g_func. rewrite Hswitch. reflexivity. }
  repeat split.
  - unfold fitness.
    destruct (m_prob_id p)
      as [| [[[q | q |] | [q | q |] |] | [[q | q |] | [q | q |] |] |]];
      try reflexivity; exfalso; lia.
  - exact Hswitch.
  - apply Hg.
  - intro Hx. rewrite (p_distance_size_ok _ _ Hx), convergence_metric_eq, Hg.
    reflexivity.
Qed.

End DefinedBehaviour.

(* ===================================================================== *)
(** ** Name and bounds *)
(* ===================================================================== *)

(** [std::to_string] prints a numeral that reads back as the number. *)
Lemma parse_to_string (n : N) : parse_N (to_string n) = Some n.
Proof.
  unfold parse_N, to_string.
  rewrite NilZero.usu.
  - simpl. rewrite DecimalN.Unsigned.of_to. reflexivity.
  - destruct n as [| q]; simpl; [discriminate | apply DecimalPos.Unsigned.to_uint_nonnil].
Qed.

(** X12: the name of an evaluator is ["DTLZ"] followed by the decimal
    numeral of its problem id, which reads back as that id; so two
    evaluators have the same name exactly when they have the same problem
    id. *)
Theorem get_name_identifies_problem (p q : dtlz) :
  (exists digits : string,
      get_name p = ("DTLZ" ++ digits)%string
      /\ parse_N digits = Some (m_prob_id p))
  /\ (get_name p = get_name q <-> m_prob_id p = m_prob_id q).
Proof.
  split.
  - exists (to_string (m_prob_id p)). split; [reflexivity | apply parse_to_string].
  - split.
    + unfold get_name. intro Hname. simpl in Hname. injection Hname as Hdigits.
      apply (f_equal parse_N) in Hdigits. rewrite !parse_to_string in Hdigits.
      injection Hdigits as Hid. exact Hid.
    + intro Hid. unfold get_name. rewrite Hid. reflexivity.
Qed.

Section Bounds.

Context {D : Type} `{DoubleOps D}.

Local Open Scope double_scope.

Lemma fitness_returns_constructed (p : dtlz) (x : vector_double D) :
  (1 <= m_prob_id p <= 7)%N -> (2 <= m_fdim p)%N -> (m_fdim p < m_dim p)%N ->
  (m_dim p < size_modulus)%N -> vsize x = m_dim p ->
  returns (fitness p x) (fun f => vsize f = m_fdim p).
Proof.
  intros Hid Hfdim Hdim Hmax Hx. unfold fitness.
  destruct (prob_id_cases Hid) as [E | [E | [E | [E | [E | [E | E]]]]]]; rewrite E.
  - apply f1_objfun_impl_returns; assumption.
  - apply f23_objfun_impl_returns; assumption.
  - apply f23_objfun_impl_returns; assumption.
  - apply f4_objfun_impl_returns; assumption.
  - apply f56_objfun_impl_returns; assumption.
  - apply f56_objfun_impl_returns; assumption.
  - apply f7_objfun_impl_returns; assumption.
Qed.

(** X13: for a constructed evaluator both vectors of [get_bounds] have
    length [dimension], the lower one all [0.] and the upper one all [1.];
    they are decision vectors that [fitness] maps to [get_nobj] objectives
    and that [p_distance] accepts. *)
Theorem get_bounds_are_decision_vectors (prob_id dim fdim alpha : N) (p : dtlz) :
  dtlz_ctor prob_id dim fdim alpha = Ok p ->
  let lower := fst (get_bounds p) in
  let upper := snd (get_bounds p) in
  vsize lower = m_dim p /\ vsize upper = m_dim p
  /\ Forall (fun a => a = of_int 0) lower /\ Forall (fun a => a = of_int 1) upper
  /\ returns (fitness p lower) (fun f => vsize f = get_nobj p)
  /\ returns (fitness p upper) (fun f => vsize f = get_nobj p)
  /\ ~ throws_invalid_argument (p_distance p lower)
  /\ ~ throws_invalid_argument (p_distance p upper).
Proof.
  intros Hp lower upper. apply dtlz_ctor_invariant in Hp.
  destruct Hp as [Hid [Hfdim [Hdim Hmax]]].
  assert (Hlower : vsize lower = m_dim p) by apply vsize_repeat.
  assert (Hupper : vsize upper = m_dim p) by apply vsize_repeat.
  repeat split; try assumption.
  - apply Forall_forall. intros a Ha. apply repeat_spec in Ha. exact Ha.
  - apply Forall_forall. intros a Ha. apply repeat_spec in Ha. exact Ha.
  - apply fitness_returns_constructed; assumption.
  - apply fitness_returns_constructed; assumption.
  - intro Hthrow. apply p_distance_throws_iff in Hthrow. contradiction.
  - intro Hthrow. apply p_distance_throws_iff in Hthrow. contradiction.
Qed.

End Bounds.

(* ===================================================================== *)
(** ** DTLZ4 with exponent 1 *)
(* ===================================================================== *)

Lemma shape_front_ext {D : Type} `{DoubleOps D} (init : D) (c l c' l' : D -> D)
      (v : list D) (n : nat) :
  (forall a, c a = c' a) -> (forall a, l a = l' a) ->
  shape_front init c l v n = shape_front init c' l' v n.
Proof.
  intros Hc Hl.
  assert (Hprod : forall r i0, shape_product c v r i0 = shape_product c' v r i0).
  { intros r. unfold shape_product.
    induction (firstn r v) as [| a u IH]; intro i0; simpl; [reflexivity |].
    rewrite Hc. apply IH. }
  unfold shape_front. apply map_ext. intros [| k]; unfold shape_objective.
  - apply Hprod.
  - rewrite Hprod, Hl. reflexivity.
Qed.

Section Alpha1.

Local Open Scope R_scope.

Lemma Rpow_one (a : R) : Rpow a (of_N 1) = a.
Proof.
  change (of_N 1 : R) with (IZR 1). rewrite Rpow_IZR. simpl. lra.
Qed.

(** X14: on real numbers, problem 4 with [alpha = 1] is problem 2: the two
    evaluators compute the same objective vector, since [pow(x, 1) = x] and
    both use the distance function [g245_func]. *)
Theorem fitness_dtlz4_alpha_1 (dim fdim alpha : N) (x : vector_double R) :
  (2 <= fdim < size_modulus)%N ->
  (fdim - 1 <= vsize x)%N ->
  fitness (mk_dtlz 4 1 dim fdim) x = fitness (mk_dtlz 2 alpha dim fdim) x.
Proof.
  intros [Hfdim Hmax] Hx. unfold fitness. simpl m_prob_id. cbv iota.
  rewrite f4_objfun_impl_eq, f23_objfun_impl_eq by (simpl; assumption).
  simpl m_fdim. simpl m_alpha.
  change (g_func (mk_dtlz 4 1 dim fdim) (skipn (N.to_nat (fdim - 1)) x))
    with (g245_func (skipn (N.to_nat (fdim - 1)) x)).
  change (g_func (mk_dtlz 2 alpha dim fdim) (skipn (N.to_nat (fdim - 1)) x))
    with (g245_func (skipn (N.to_nat (fdim - 1)) x)).
  destruct (g245_func (skipn (N.to_nat (fdim - 1)) x)) as [g | e |];
    simpl bind; try reflexivity.
  rewrite Rpow_one. f_equal. f_equal.
  apply shape_front_ext; intro a; rewrite Rpow_one; reflexivity.
Qed.

End Alpha1.

(* ===================================================================== *)
(** ** The distribution function and the constructor, at their edges *)
(* ===================================================================== *)

Section DistributionEdge.

Context {D : Type} `{DoubleOps D}.

Local Open Scope double_scope.

(** X15: [h7_func] does not read the last entry of its vector: on a
    non-empty vector it returns [fdim - sum] over all entries but the last,
    whatever the last one is.  On the empty vector the bound
    [f.size() - 1] of its loop wraps around and the first iteration reads
    past the end. *)
Theorem h7_func_ignores_last_entry (p : dtlz) (fs : vector_double D) (z z' g : D) :
  (vsize fs + 1 < size_modulus)%N ->
  h7_func p (fs ++ [z]) g = Ok (h_spec (m_fdim p) fs g)
  /\ h7_func p (fs ++ [z]) g = h7_func p (fs ++ [z']) g
  /\ h7_func p [] g = Undefined.
Proof.
  intro Hsize. rewrite !h7_func_eq by exact Hsize.
  split; [reflexivity | split; [reflexivity |]].
  unfold h7_func.
  assert (Hwrap : size_sub (vsize (@nil D)) 1 = size_max) by reflexivity.
  rewrite Hwrap.
  rewrite (@for_range_undefined _ (fun _ => True) _ 0%N _ 0%N);
    [ reflexivity
    | unfold size_max; lia
    | exact I
    | intros i s' Hi; lia
    | intros s' _; reflexivity ].
Qed.

End DistributionEdge.



(* ===================================================================== *)
(** ** The theorems above on concrete evaluators *)
(* ===================================================================== *)

Lemma fitness_dtlz1_closed_form_witness :
  (m_prob_id (sample_dtlz 1) = 1%N)
  /\ (2 <= m_fdim (sample_dtlz 1) < size_modulus)%N
  /\ (m_fdim (sample_dtlz 1) - 1 <= vsize sample_x)%N
  /\ (exists g : R,
         g_func (sample_dtlz 1) (skipn (N.to_nat (m_fdim (sample_dtlz 1) - 1)) sample_x) = Ok g
         /\ fitness (sample_dtlz 1) sample_x
            = Ok (shape_front (c0_5 * (of_int 1 + g))%dbl (fun a => a)
                    (fun a => (of_int 1 - a)%dbl) sample_x
                    (N.to_nat (m_fdim (sample_dtlz 1)))
                  ++ [(c0_5 * (of_int 1 - hd (of_int 0) sample_x)
                       * (of_int 1 + g))%dbl])).
Proof.
  assert (H1 : m_prob_id (sample_dtlz 1) = 1%N)
    by (reflexivity).
  assert (H2 : (2 <= m_fdim (sample_dtlz 1) < size_modulus)%N)
    by (unfold sample_dtlz, size_modulus; simpl; lia).
  assert (H3 : (m_fdim (sample_dtlz 1) - 1 <= vsize sample_x)%N)
    by (unfold sample_dtlz, sample_x, vsize; simpl; lia).
  split; [exact H1 |
  split; [exact H2 | split; [exact H3 |
    exact (@fitness_dtlz1_closed_form R _ (sample_dtlz 1) sample_x H1 H2 H3)]]].
Defined.

Lemma fitness_dtlz23_closed_form_witness :
  (m_prob_id (sample_dtlz 3) = 2%N \/ m_prob_id (sample_dtlz 3) = 3%N)
  /\ (2 <= m_fdim (sample_dtlz 3) < size_modulus)%N
  /\ (m_fdim (sample_dtlz 3) - 1 <= vsize sample_x)%N
  /\ (exists g : R,
         g_func (sample_dtlz 3) (skipn (N.to_nat (m_fdim (sample_dtlz 3) - 1)) sample_x) = Ok g
         /\ fitness (sample_dtlz 3) sample_x
            = Ok (shape_front (of_int 1 + g)%dbl (fun a => dcos (a * d_pi_half)%dbl)
                    (fun a => dsin (a * d_pi_half)%dbl) sample_x
                    (N.to_nat (m_fdim (sample_dtlz 3)))
                  ++ [((of_int 1 + g) * dsin (hd (of_int 0) sample_x * d_pi_half))%dbl])).
Proof.
  assert (H1 : m_prob_id (sample_dtlz 3) = 2%N \/ m_prob_id (sample_dtlz 3) = 3%N)
    by (right; reflexivity).
  assert (H2 : (2 <= m_fdim (sample_dtlz 3) < size_modulus)%N)
    by (unfold sample_dtlz, size_modulus; simpl; lia).
  assert (H3 : (m_fdim (sample_dtlz 3) - 1 <= vsize sample_x)%N)
    by (unfold sample_dtlz, sample_x, vsize; simpl; lia).
  split; [exact H1 |
  split; [exact H2 | split; [exact H3 |
    exact (@fitness_dtlz23_closed_form R _ (sample_dtlz 3) sample_x H1 H2 H3)]]].
Defined.

Lemma fitness_dtlz4_closed_form_witness :
  (m_prob_id (sample_dtlz 4) = 4%N)
  /\ (2 <= m_fdim (sample_dtlz 4) < size_modulus)%N
  /\ (m_fdim (sample_dtlz 4) - 1 <= vsize sample_x)%N
  /\ (exists g : R,
         g_func (sample_dtlz 4) (skipn (N.to_nat (m_fdim (sample_dtlz 4) - 1)) sample_x) = Ok g
         /\ fitness (sample_dtlz 4) sample_x
            = Ok (shape_front (of_int 1 + g)%dbl
                    (fun a => dcos (dpow a (of_N (m_alpha (sample_dtlz 4))) * d_pi_half)%dbl)
                    (fun a => dsin (dpow a (of_N (m_alpha (sample_dtlz 4))) * d_pi_half)%dbl)
                    sample_x (N.to_nat (m_fdim (sample_dtlz 4)))
                  ++ [((of_int 1 + g)
                       * dsin (dpow (hd (of_int 0) sample_x) (of_N (m_alpha (sample_dtlz 4)))
                               * d_pi_half))%dbl])).
Proof.
  assert (H1 : m_prob_id (sample_dtlz 4) = 4%N)
    by (reflexivity).
  assert (H2 : (2 <= m_fdim (sample_dtlz 4) < size_modulus)%N)
    by (unfold sample_dtlz, size_modulus; simpl; lia).
  assert (H3 : (m_fdim (sample_dtlz 4) - 1 <= vsize sample_x)%N)
    by (unfold sample_dtlz, sample_x, vsize; simpl; lia).
  split; [exact H1 |
  split; [exact H2 | split; [exact H3 |
    exact (@fitness_dtlz4_closed_form R _ (sample_dtlz 4) sample_x H1 H2 H3)]]].
Defined.

Lemma fitness_dtlz56_closed_form_witness :
  (m_prob_id (sample_dtlz 5) = 5%N \/ m_prob_id (sample_dtlz 5) = 6%N)
  /\ (2 <= m_fdim (sample_dtlz 5) < size_modulus)%N
  /\ (m_fdim (sample_dtlz 5) <= vsize sample_x)%N
  /\ (exists g : R,
         g_func (sample_dtlz 5) (skipn (N.to_nat (m_fdim (sample_dtlz 5) - 1)) sample_x) = Ok g
         /\ fitness (sample_dtlz 5) sample_x
            = Ok (shape_front (of_int 1 + g)%dbl (fun a => dcos (a * d_pi_half)%dbl)
                    (fun a => dsin (a * d_pi_half)%dbl)
                    (theta_of g sample_x (N.to_nat (m_fdim (sample_dtlz 5))))
                    (N.to_nat (m_fdim (sample_dtlz 5)))
                  ++ [((of_int 1 + g) * dsin (hd (of_int 0) sample_x * d_pi_half))%dbl])).
Proof.
  assert (H1 : m_prob_id (sample_dtlz 5) = 5%N \/ m_prob_id (sample_dtlz 5) = 6%N)
    by (left; reflexivity).
  assert (H2 : (2 <= m_fdim (sample_dtlz 5) < size_modulus)%N)
    by (unfold sample_dtlz, size_modulus; simpl; lia).
  assert (H3 : (m_fdim (sample_dtlz 5) <= vsize sample_x)%N)
    by (unfold sample_dtlz, sample_x, vsize; simpl; lia).
  split; [exact H1 |
  split; [exact H2 | split; [exact H3 |
    exact (@fitness_dtlz56_closed_form R _ (sample_dtlz 5) sample_x H1 H2 H3)]]].
Defined.

Lemma fitness_dtlz1_hyperplane_witness :
  (m_prob_id (sample_dtlz 1) = 1%N)
  /\ (2 <= m_fdim (sample_dtlz 1) < size_modulus)%N
  /\ (m_fdim (sample_dtlz 1) - 1 <= vsize sample_x)%N
  /\ (exists (g : R) (f : vector_double R),
         g_func (sample_dtlz 1) (skipn (N.to_nat (m_fdim (sample_dtlz 1) - 1)) sample_x) = Ok g
         /\ fitness (sample_dtlz 1) sample_x = Ok f
         /\ Rsum f = (0.5 * (1 + g))%R
         /\ (g = 0%R -> Rsum f = 0.5%R)).
Proof.
  assert (H1 : m_prob_id (sample_dtlz 1) = 1%N)
    by (reflexivity).
  assert (H2 : (2 <= m_fdim (sample_dtlz 1) < size_modulus)%N)
    by (unfold sample_dtlz, size_modulus; simpl; lia).
  assert (H3 : (m_fdim (sample_dtlz 1) - 1 <= vsize sample_x)%N)
    by (unfold sample_dtlz, sample_x, vsize; simpl; lia).
  split; [exact H1 |
  split; [exact H2 | split; [exact H3 |
    exact (@fitness_dtlz1_hyperplane (sample_dtlz 1) sample_x H1 H2 H3)]]].
Defined.



Lemma fitness_defined_iff_long_enough_witness :
  (1 <= m_prob_id (sample_dtlz 7) <= 7)%N
  /\ (2 <= m_fdim (sample_dtlz 7) < size_modulus)%N
  /\ (((min_length (sample_dtlz 7) <= vsize [0.5; 0.25]%R)%N ->
         returns (fitness (sample_dtlz 7) [0.5; 0.25]%R)
             (fun f => vsize f = m_fdim (sample_dtlz 7)))
        /\ ((vsize [0.5; 0.25]%R < min_length (sample_dtlz 7))%N
            -> fitness (sample_dtlz 7) [0.5; 0.25]%R = Undefined)).
Proof.
  assert (H1 : (1 <= m_prob_id (sample_dtlz 7) <= 7)%N)
    by (unfold sample_dtlz; simpl; lia).
  assert (H2 : (2 <= m_fdim (sample_dtlz 7) < size_modulus)%N)
    by (unfold sample_dtlz, size_modulus; simpl; lia).
  split; [exact H1 |
  split; [exact H2 |
    exact (@fitness_defined_iff_long_enough R _ (sample_dtlz 7) [0.5; 0.25]%R H1 H2)]].
Defined.

Lemma invalid_prob_id_behaviour_witness :
  (m_prob_id (sample_dtlz 9) = 0 \/ 7 < m_prob_id (sample_dtlz 9))%N
  /\ (fitness (sample_dtlz 9) sample_x = Ok []
        /\ g_switch (m_prob_id (sample_dtlz 9)) = g_fallthrough
        /\ g_func (sample_dtlz 9) sample_x = Ok (of_int (-1))
        /\ (vsize sample_x = m_dim (sample_dtlz 9) ->
            p_distance (sample_dtlz 9) sample_x = Ok (of_int 0 + of_int (-1))%dbl)).
Proof.
  assert (H1 : (m_prob_id (sample_dtlz 9) = 0 \/ 7 < m_prob_id (sample_dtlz 9))%N)
    by (right; unfold sample_dtlz; simpl; lia).
  split; [exact H1 |
    exact (@invalid_prob_id_behaviour R _ (sample_dtlz 9) sample_x H1)].
Defined.

Lemma get_bounds_are_decision_vectors_witness :
  (dtlz_ctor 6 3 2 100 = Ok (mk_dtlz 6 100 3 2))
  /\ (let lower := fst (@get_bounds R _ (mk_dtlz 6 100 3 2)) in
        let upper := snd (@get_bounds R _ (mk_dtlz 6 100 3 2)) in
        vsize lower = m_dim (mk_dtlz 6 100 3 2) /\ vsize upper = m_dim (mk_dtlz 6 100 3 2)
        /\ Forall (fun a => a = of_int 0) lower /\ Forall (fun a => a = of_int 1) upper
        /\ returns (fitness (mk_dtlz 6 100 3 2) lower)
            (fun f => vsize f = get_nobj (mk_dtlz 6 100 3 2))
        /\ returns (fitness (mk_dtlz 6 100 3 2) upper)
            (fun f => vsize f = get_nobj (mk_dtlz 6 100 3 2))
        /\ ~ throws_invalid_argument (p_distance (mk_dtlz 6 100 3 2) lower)
        /\ ~ throws_invalid_argument (p_distance (mk_dtlz 6 100 3 2) upper)).
Proof.
  assert (H1 : dtlz_ctor 6 3 2 100 = Ok (mk_dtlz 6 100 3 2))
    by (reflexivity).
  split; [exact H1 |
    exact (@get_bounds_are_decision_vectors R _ 6%N 3%N 2%N 100%N (mk_dtlz 6 100 3 2) H1)].
Defined.

Lemma fitness_dtlz4_alpha_1_witness :
  (2 <= 3 < size_modulus)%N
  /\ (3 - 1 <= vsize sample_x)%N
  /\ (fitness (mk_dtlz 4 1 4 3) sample_x = fitness (sample_dtlz 2) sample_x).
Proof.
  assert (H1 : (2 <= 3 < size_modulus)%N)
    by (unfold size_modulus; lia).
  assert (H2 : (3 - 1 <= vsize sample_x)%N)
    by (unfold sample_dtlz, sample_x, vsize; simpl; lia).
  split; [exact H1 |
  split; [exact H2 |
    exact (@fitness_dtlz4_alpha_1 4%N 3%N 100%N sample_x H1 H2)]].
Defined.

Lemma h7_func_ignores_last_entry_witness :
  (vsize [0.5; 0.25]%R + 1 < size_modulus)%N
  /\ (h7_func (sample_dtlz 7) ([0.5; 0.25]%R ++ [0%R]) 2%R
      = Ok (h_spec (m_fdim (sample_dtlz 7)) [0.5; 0.25]%R 2%R)
        /\ h7_func (sample_dtlz 7) ([0.5; 0.25]%R ++ [0%R]) 2%R = h7_func (sample_dtlz 7)
            ([0.5; 0.25]%R ++ [1%R]) 2%R
        /\ h7_func (sample_dtlz 7) (@nil R) 2%R = Undefined).
Proof.
  assert (H1 : (vsize [0.5; 0.25]%R + 1 < size_modulus)%N)
    by (unfold vsize, size_modulus; simpl; lia).
  split; [exact H1 |
    exact (@h7_func_ignores_last_entry R _ (sample_dtlz 7) [0.5; 0.25]%R 0%R 1%R 2%R H1)].
Defined.

